(** * Weather forecast aggregation (Exam.py): model and verified properties

    The development embeds the two classes of [Exam.py]:

    - [WeatherData]      : one calendar day, with [add_sample] and [to_dict];
    - [WeatherForecast]  : the engine, with [_process_forecasts] and
                           [generate_report].

    Python objects are records, mutation is explicit state passing, the
    [daily_data] dictionary is an association list kept in insertion order
    (the order in which Python iterates over [dict.values()]).

    Python's [float] arithmetic is an interface ([PyFloat]); the model is
    written once over that interface and is instantiated with IEEE-754
    binary64 (the arithmetic CPython really uses) and with exact rationals.

    The input is the decoded ['list'] of the API response with its
    required members present: temperatures and precipitation amounts are
    floats, the humidity is an int, the time stamp is an int.  A response
    that lacks a member makes [fetch_data] fail before any report exists
    and is not part of the model. *)

From Stdlib Require Import ZArith List Bool Lia.
From Stdlib Require Import Strings.String Strings.Ascii.
From Stdlib Require Import Sorting.Sorted Sorting.Permutation.
From Stdlib Require Import QArith Qabs Lqa.
From Stdlib Require Import Floats.
Import ListNotations.

Set Warnings "-inexact-float".

Local Open Scope Z_scope.
Local Open Scope string_scope.

(* ================================================================== *)
(** * Python numbers *)

(** The float operations the program uses.  [f_round1 x] is [round(x, 1)];
    [f_sum_loop acc xs] is the loop of the built-in [sum] once its running
    total [acc] is a float and the remaining items [xs] are floats. *)
Class PyFloat (F : Type) : Type := {
  f_zero     : F;                (* the literal 0.0 *)
  f_of_Z     : Z -> F;           (* int -> float conversion in mixed arithmetic *)
  f_add      : F -> F -> F;      (* x + y *)
  f_sub      : F -> F -> F;      (* x - y *)
  f_abs      : F -> F;           (* abs(x) *)
  f_eqb      : F -> F -> bool;   (* x == y *)
  f_ltb      : F -> F -> bool;   (* x < y *)
  f_leb      : F -> F -> bool;   (* x <= y *)
  f_round1   : F -> F;           (* round(x, 1) *)
  f_sum_loop : F -> list F -> F  (* sum(xs, acc) on floats *)
}.

(** A JSON / Python number is an [int] or a [float]: [sum] starts from the
    int [0], and [round] of an int is that int. *)
Inductive pynum (F : Type) : Type :=
| NInt (n : Z)
| NFloat (x : F).
Arguments NInt {F} n.
Arguments NFloat {F} x.

Section Numbers.
Context {F : Type} {PF : PyFloat F}.

(** [sum(xs)] for floats [xs]: the total starts as the int [0]; the first
    item is added to it with [+], which makes the total a float, and the
    float loop of [sum] takes over. *)
Definition py_sum (xs : list F) : pynum F :=
  match xs with
  | [] => NInt 0
  | x :: xs' => NFloat (f_sum_loop (f_add (f_of_Z 0) x) xs')
  end.

(** [round(a, 1)]. *)
Definition py_round1 (a : pynum F) : pynum F :=
  match a with
  | NInt n => NInt n
  | NFloat x => NFloat (f_round1 x)
  end.

(** The float a number is converted to when it meets a float. *)
Definition py_float (a : pynum F) : F :=
  match a with
  | NInt n => f_of_Z n
  | NFloat x => x
  end.

(** [a == b] on numbers. *)
Definition py_eqb (a b : pynum F) : bool :=
  match a, b with
  | NInt n, NInt m => Z.eqb n m
  | _, _ => f_eqb (py_float a) (py_float b)
  end.
End Numbers.

(* ================================================================== *)
(** * Python lists *)

(** [l[-1]] under the guard [if l:]; [None] is the empty list. *)
Fixpoint py_last {A : Type} (l : list A) : option A :=
  match l with
  | [] => None
  | [x] => Some x
  | _ :: l' => py_last l'
  end.

(* ================================================================== *)
(** * class WeatherData *)

Section WeatherDataModel.
Context {F : Type} {PF : PyFloat F}.

Record WeatherData : Type := mkWeatherData {
  date        : string;
  rain_mm     : F;
  snow_mm     : F;
  transitions : Z;
  samples     : list (F * string)   (* (temp, weather_main) *)
}.

(** [WeatherData.__init__] *)
Definition WeatherData_init (d : string) : WeatherData :=
  {| date := d; rain_mm := f_zero; snow_mm := f_zero;
     transitions := 0; samples := [] |}.

(** The test of line 42: category change and variation above 3. *)
Definition major_transition (prev : F * string) (temp : F) (weather_main : string) : bool :=
  let '(prev_temp, prev_weather) := prev in
  let temp_change := f_abs (f_sub temp prev_temp) in
  let weather_change := negb (String.eqb weather_main prev_weather) in
  weather_change && f_ltb (f_of_Z 3) temp_change.

(** [WeatherData.add_sample] *)
Definition add_sample (self : WeatherData) (temp : F) (weather_main : string)
           (rain snow : F) : WeatherData :=
  let rain_mm' := f_add (rain_mm self) rain in
  let snow_mm' := f_add (snow_mm self) snow in
  let transitions' :=
    match py_last (samples self) with
    | Some prev =>
        if major_transition prev temp weather_main
        then transitions self + 1
        else transitions self
    | None => transitions self
    end in
  {| date := date self;
     rain_mm := rain_mm';
     snow_mm := snow_mm';
     transitions := transitions';
     samples := samples self ++ [(temp, weather_main)] |}.

(** The dictionary built by [to_dict]. *)
Record DayDict : Type := mkDayDict {
  date_local              : string;
  rain_cumul_mm           : F;
  snow_cumul_mm           : F;
  major_transitions_count : Z
}.

(** [WeatherData.to_dict] *)
Definition to_dict (self : WeatherData) : DayDict :=
  {| date_local := date self;
     rain_cumul_mm := f_round1 (rain_mm self);
     snow_cumul_mm := f_round1 (snow_mm self);
     major_transitions_count := transitions self |}.

(** One call of [add_sample], as a record of its four arguments. *)
Record Sample : Type := mkSample {
  s_temp    : F;
  s_weather : string;
  s_rain    : F;
  s_snow    : F
}.

(** The call [self.add_sample(temp, weather_main, rain, snow)] for the
    arguments recorded in [s]. *)
Definition add_call (self : WeatherData) (s : Sample) : WeatherData :=
  add_sample self (s_temp s) (s_weather s) (s_rain s) (s_snow s).

(** A sequence of calls on one object. *)
Definition add_samples (self : WeatherData) (l : list Sample) : WeatherData :=
  fold_left add_call l self.

(** What [add_sample] remembers of a call. *)
Definition sample_pair (s : Sample) : F * string := (s_temp s, s_weather s).

(** [1] when the call [s] directly after the call [p] is a major transition. *)
Definition transition_step (p : option Sample) (s : Sample) : Z :=
  match p with
  | Some p =>
      if negb (String.eqb (s_weather s) (s_weather p))
         && f_ltb (f_of_Z 3) (f_abs (f_sub (s_temp s) (s_temp p)))
      then 1 else 0
  | None => 0
  end.

(** Number of major transitions among the adjacent pairs of [l], the first
    element of [l] being preceded by [p]. *)
Fixpoint count_transitions (p : option Sample) (l : list Sample) : Z :=
  match l with
  | [] => 0
  | s :: l' => transition_step p s + count_transitions (Some s) l'
  end.

(** Both precipitation amounts of a call are non-negative. *)
Definition nonneg_sample (s : Sample) : Prop :=
  f_leb f_zero (s_rain s) = true /\ f_leb f_zero (s_snow s) = true.
End WeatherDataModel.

Arguments WeatherData F : clear implicits.
Arguments DayDict F : clear implicits.
Arguments Sample F : clear implicits.

(* ================================================================== *)
(** * The [daily_data] dictionary

    A Python [dict] with [str] keys, in insertion order: a key is bound at
    most once, a new key goes to the end, and an object stored under a key is
    mutated in place. *)

Section Dict.
Context {V : Type}.

Definition dict : Type := list (string * V).

(** [d.get(k)] *)
Fixpoint dict_get (k : string) (d : dict) : option V :=
  match d with
  | [] => None
  | (k', v) :: d' => if String.eqb k k' then Some v else dict_get k d'
  end.

(** [k in d] *)
Definition dict_mem (k : string) (d : dict) : bool :=
  match dict_get k d with Some _ => true | None => false end.

(** [d[k] = v] *)
Fixpoint dict_set (k : string) (v : V) (d : dict) : dict :=
  match d with
  | [] => [(k, v)]
  | (k', v') :: d' =>
      if String.eqb k k' then (k', v) :: d' else (k', v') :: dict_set k v d'
  end.

(** [d[k].method(...)]: the object bound to [k] is replaced by its state
    after the call. *)
Fixpoint dict_update (k : string) (f : V -> V) (d : dict) : dict :=
  match d with
  | [] => []
  | (k', v) :: d' =>
      if String.eqb k k' then (k', f v) :: d' else (k', v) :: dict_update k f d'
  end.

(** [d.values()] *)
Definition dict_values (d : dict) : list V := map snd d.
End Dict.

Arguments dict V : clear implicits.

(* ================================================================== *)
(** * [sorted(xs, key=...)] with [str] keys

    Python's [sorted] is stable and compares keys with [<] only; it is
    modelled by a stable insertion sort.  Strings are compared character by
    character ([String.ltb]). *)

Section Sorted.
Context {A : Type} (key : A -> string).

Fixpoint insert_by (x : A) (l : list A) : list A :=
  match l with
  | [] => [x]
  | y :: l' =>
      if String.ltb (key y) (key x) then y :: insert_by x l' else x :: y :: l'
  end.

Definition sorted_by (l : list A) : list A := fold_right insert_by [] l.
End Sorted.

(* ================================================================== *)
(** * class WeatherForecast *)

(** [datetime.fromtimestamp(t).strftime('%Y-%m-%d')]: the calendar date of
    a timestamp in the time zone of the process. *)
Class LocalTime : Type := { local_date : Z -> string }.

(** [str.upper], on the ASCII letters. *)
Definition ascii_upper (c : ascii) : ascii :=
  let n := N_of_ascii c in
  if (N.leb 97 n && N.leb n 122)%bool then ascii_of_N (n - 32) else c.

Fixpoint upper (s : string) : string :=
  match s with
  | EmptyString => EmptyString
  | String c s' => String (ascii_upper c) (upper s')
  end.

Section WeatherForecastModel.
Context {F : Type} {PF : PyFloat F} {LT : LocalTime}.

(** One element of the ['list'] array of the API response.  [rain] and
    [snow] are optional objects whose ['3h'] member is optional. *)
Record Forecast : Type := mkForecast {
  dt           : Z;                    (* forecast['dt'] *)
  main_temp    : F;                    (* forecast['main']['temp'] *)
  main_humidity: Z;                    (* forecast['main']['humidity'] *)
  weather_main : string;               (* forecast['weather'][0]['main'] *)
  rain         : option (option F);    (* forecast.get('rain') and its '3h' *)
  snow         : option (option F)     (* forecast.get('snow') and its '3h' *)
}.

(** [forecast.get(k, {}).get('3h', 0.0)] *)
Definition get_3h (p : option (option F)) : F :=
  match p with
  | Some (Some x) => x
  | _ => f_zero
  end.

Record WeatherForecast : Type := mkWeatherForecast {
  api_key       : string;
  city          : string;
  country       : string;
  daily_data    : dict (WeatherData F);
  max_humidity  : Z;
  location_name : string
}.

(** [WeatherForecast.__init__] *)
Definition WeatherForecast_init (api_key city country : string) : WeatherForecast :=
  {| api_key := api_key; city := city; country := country;
     daily_data := []; max_humidity := 0; location_name := "" |}.

(** The body of the [for] loop of [_process_forecasts]. *)
Definition process_forecast (today_str : string) (self : WeatherForecast)
           (forecast : Forecast) : WeatherForecast :=
  let date_str := local_date (dt forecast) in
  if String.eqb date_str today_str then self
  else
    let daily :=
      if negb (dict_mem date_str (daily_data self))
      then dict_set date_str (WeatherData_init date_str) (daily_data self)
      else daily_data self in
    let temp := main_temp forecast in
    let weather := weather_main forecast in
    let humidity := main_humidity forecast in
    let rain := get_3h (rain forecast) in
    let snow := get_3h (snow forecast) in
    {| api_key := api_key self; city := city self; country := country self;
       daily_data :=
         dict_update date_str (fun day => add_sample day temp weather rain snow) daily;
       max_humidity := Z.max (max_humidity self) humidity;
       location_name := location_name self |}.

(** [WeatherForecast._process_forecasts]; [now] is the clock reading of
    [datetime.now()]. *)
Definition _process_forecasts (now : Z) (self : WeatherForecast)
           (forecasts : list Forecast) : WeatherForecast :=
  let today_str := local_date now in
  fold_left (process_forecast today_str) forecasts self.

(** The [report] dictionary of [generate_report]. *)
Record Report : Type := mkReport {
  forecast_location_name : string;
  country_code           : string;
  total_rain_period_mm   : pynum F;
  total_snow_period_mm   : pynum F;
  max_humidity_period    : Z;
  forecast_details       : list (DayDict F)
}.

(** [WeatherForecast.generate_report]: the dictionary that is written to
    the output file. *)
Definition generate_report (self : WeatherForecast) : Report :=
  let total_rain := py_sum (map rain_mm (dict_values (daily_data self))) in
  let total_snow := py_sum (map snow_mm (dict_values (daily_data self))) in
  {| forecast_location_name := location_name self;
     country_code := upper (country self);
     total_rain_period_mm := py_round1 total_rain;
     total_snow_period_mm := py_round1 total_snow;
     max_humidity_period := max_humidity self;
     forecast_details :=
       map to_dict (sorted_by date (dict_values (daily_data self))) |}.

(** A run of the program after a successful fetch: a fresh engine, the
    location name of the response, [_process_forecasts], [generate_report]. *)
Definition run (api_key city country name : string) (now : Z)
           (forecasts : list Forecast) : Report :=
  let fresh := WeatherForecast_init api_key city country in
  let named :=
    {| api_key := api_key; city := city; country := country;
       daily_data := daily_data fresh; max_humidity := max_humidity fresh;
       location_name := name |} in
  generate_report (_process_forecasts now named forecasts).

(** The sample a forecast hands to [add_sample]. *)
Definition sample_of (f : Forecast) : Sample F :=
  {| s_temp := main_temp f; s_weather := weather_main f;
     s_rain := get_3h (rain f); s_snow := get_3h (snow f) |}.

(** [date_str] of a forecast. *)
Definition date_of (f : Forecast) : string := local_date (dt f).

(** The samples of the forecasts whose local date is [d], in input order. *)
Definition day_samples (d : string) (forecasts : list Forecast) : list (Sample F) :=
  map sample_of (filter (fun f => String.eqb (date_of f) d) forecasts).

(** The dates other than [today_str] that occur in the input, each once, in
    order of first occurrence. *)
Definition day_dates (today_str : string) (forecasts : list Forecast) : list string :=
  fold_left
    (fun acc f =>
       if String.eqb (date_of f) today_str || existsb (String.eqb (date_of f)) acc
       then acc else (acc ++ [date_of f])%list)
    forecasts [].

(** The object of day [d]: a fresh [WeatherData] fed with the samples of
    that day. *)
Definition day_data (d : string) (forecasts : list Forecast) : WeatherData F :=
  add_samples (WeatherData_init d) (day_samples d forecasts).

(** The dictionary the input determines. *)
Definition days_of (today_str : string) (forecasts : list Forecast) : dict (WeatherData F) :=
  map (fun d => (d, day_data d forecasts)) (day_dates today_str forecasts).

(** The object [add_sample] is called on for the key [d]. *)
Definition day_or_fresh (d : string) (m : dict (WeatherData F)) : WeatherData F :=
  match dict_get d m with
  | Some w => w
  | None => WeatherData_init d
  end.
End WeatherForecastModel.

Arguments Forecast F : clear implicits.
Arguments WeatherForecast F : clear implicits.
Arguments Report F : clear implicits.

(* ================================================================== *)
(** * The aggregator that keeps only the last sample

    The variant of [WeatherData] that retains the single most recent
    (temperature, category) pair instead of the whole list. *)

Section DailyAggregateModel.
Context {F : Type} {PF : PyFloat F}.

Record DailyAggregate : Type := mkDailyAggregate {
  agg_date         : string;
  rain_total_mm    : F;
  snow_total_mm    : F;
  transition_count : Z;
  last_sample      : option (F * string)
}.

Definition DailyAggregate_init (d : string) : DailyAggregate :=
  {| agg_date := d; rain_total_mm := f_zero; snow_total_mm := f_zero;
     transition_count := 0; last_sample := None |}.

Definition agg_add_sample (self : DailyAggregate) (temperature : F)
           (weather_category : string) (rain snow : F) : DailyAggregate :=
  {| agg_date := agg_date self;
     rain_total_mm := f_add (rain_total_mm self) rain;
     snow_total_mm := f_add (snow_total_mm self) snow;
     transition_count :=
       match last_sample self with
       | Some (prev_temp, prev_category) =>
           let temp_change := f_abs (f_sub temperature prev_temp) in
           let category_changed := negb (String.eqb weather_category prev_category) in
           if category_changed && f_ltb (f_of_Z 3) temp_change
           then transition_count self + 1
           else transition_count self
       | None => transition_count self
       end;
     last_sample := Some (temperature, weather_category) |}.

Definition to_summary (self : DailyAggregate) : DayDict F :=
  {| date_local := agg_date self;
     rain_cumul_mm := f_round1 (rain_total_mm self);
     snow_cumul_mm := f_round1 (snow_total_mm self);
     major_transitions_count := transition_count self |}.

Definition agg_add (self : DailyAggregate) (s : Sample F) : DailyAggregate :=
  agg_add_sample self (s_temp s) (s_weather s) (s_rain s) (s_snow s).

Definition agg_add_samples (self : DailyAggregate) (l : list (Sample F)) : DailyAggregate :=
  fold_left agg_add l self.

(** [represents w a]: the aggregator [a] holds what [to_dict] and the next
    [add_sample] can observe of [w]. *)
Definition represents (w : WeatherData F) (a : DailyAggregate) : Prop :=
  date w = agg_date a /\
  rain_mm w = rain_total_mm a /\
  snow_mm w = snow_total_mm a /\
  transitions w = transition_count a /\
  py_last (samples w) = last_sample a.
End DailyAggregateModel.

Arguments DailyAggregate F : clear implicits.

(* ================================================================== *)
(** * Instances of the arithmetic *)

(** [a / b] rounded to the nearest integer, ties to the even one ([b > 0]). *)
Definition round_half_even_div (a b : Z) : Z :=
  let q := a / b in
  let r := a mod b in
  match 2 * r ?= b with
  | Lt => q
  | Gt => q + 1
  | Eq => if Z.even q then q else q + 1
  end.

(** ** IEEE-754 binary64, the [float] of CPython *)

Module Binary64.
(** [10 * m * 2^e] rounded to the nearest integer, ties to even: the digits
    of the correctly rounded one-decimal representation of [m * 2^e]. *)
Definition tenths (m : positive) (e : Z) : Z :=
  match e with
  | Zneg p => round_half_even_div (10 * Zpos m) (2 ^ Zpos p)
  | _ => 10 * Zpos m * 2 ^ e
  end.

(** [round(x, 1)]: CPython rounds the exact value of [x] to one decimal
    (ties to even) and returns the double nearest to that decimal; the
    sign is kept, infinities and NaN are returned unchanged. *)
Definition round1 (x : float) : float :=
  match Prim2SF x with
  | S754_finite s m e =>
      match tenths m e with
      | Zpos n => SF2Prim (SFdiv prec emax (S754_finite s n 0) (S754_finite false 10 0))
      | _ => SF2Prim (S754_zero s)
      end
  | _ => x
  end.

(** [float(n)] for an int [n], rounded to nearest even. *)
Definition of_Z (n : Z) : float := SF2Prim (binary_normalize prec emax n 0 false).

(** The float loop of [sum] up to CPython 3.11: plain additions. *)
Definition sum_loop_plain (acc : float) (xs : list float) : float :=
  fold_left PrimFloat.add xs acc.

(** The float loop of [sum] from CPython 3.12 on: Neumaier's compensated
    summation; [c] collects the rounding errors of the additions and is
    added at the end when it is non-zero and finite. *)
Definition compensated_step (st : float * float) (x : float) : float * float :=
  let '(f_result, c) := st in
  let t := (f_result + x)%float in
  if (abs x <=? abs f_result)%float
  then (t, (c + ((f_result - t) + x))%float)
  else (t, (c + ((x - t) + f_result))%float).

Definition sum_loop_compensated (acc : float) (xs : list float) : float :=
  let '(f_result, c) := fold_left compensated_step xs (acc, 0%float) in
  if negb (c =? 0)%float && is_finite c then (f_result + c)%float else f_result.

#[export] Instance ops : PyFloat float := {|
  f_zero := 0%float;
  f_of_Z := of_Z;
  f_add := PrimFloat.add;
  f_sub := PrimFloat.sub;
  f_abs := PrimFloat.abs;
  f_eqb := PrimFloat.eqb;
  f_ltb := PrimFloat.ltb;
  f_leb := PrimFloat.leb;
  f_round1 := round1;
  f_sum_loop := sum_loop_compensated
|}.

(** The same arithmetic with the [sum] of CPython 3.11 and earlier. *)
Definition ops_plain_sum : PyFloat float := {|
  f_zero := 0%float;
  f_of_Z := of_Z;
  f_add := PrimFloat.add;
  f_sub := PrimFloat.sub;
  f_abs := PrimFloat.abs;
  f_eqb := PrimFloat.eqb;
  f_ltb := PrimFloat.ltb;
  f_leb := PrimFloat.leb;
  f_round1 := round1;
  f_sum_loop := sum_loop_plain
|}.

(** [above mx ex r]: the non-negative result [r] is not below the finite
    number of mantissa [mx] and exponent [ex] in the order of [SFcompare]. *)
Definition above (mx : positive) (ex : Z) (r : spec_float) : Prop :=
  r = S754_infinity false \/
  exists m e, r = S754_finite false m e /\ (ex < e \/ (ex = e /\ (mx <= m)%positive)).

(** The rational number a finite float stands for: its mantissa times the
    power of two of its exponent ([0] for the infinities and NaN). *)
Definition exact_value (x : float) : Q :=
  match Prim2SF x with
  | S754_finite s m e =>
      let n := if s then Zneg m else Zpos m in
      match e with
      | Zneg p => Qmake n (2 ^ p)%positive
      | _ => inject_Z (n * 2 ^ e)
      end
  | _ => 0%Q
  end.
End Binary64.

(** ** Exact rational arithmetic *)

Module Exact.
Definition round1 (x : Q) : Q :=
  Qmake (round_half_even_div (10 * Qnum x) (Zpos (Qden x))) 10.

#[export] Instance ops : PyFloat Q := {|
  f_zero := 0%Q;
  f_of_Z := inject_Z;
  f_add := Qplus;
  f_sub := Qminus;
  f_abs := Qabs;
  f_eqb := Qeq_bool;
  f_ltb := fun x y => negb (Qle_bool y x);
  f_leb := Qle_bool;
  f_round1 := round1;
  f_sum_loop := fun acc xs => fold_left Qplus xs acc
|}.
End Exact.

(** ** A process whose time zone is UTC

    The dates are those of [strftime] for the years 1000 to 9999. *)

Module UTC.
(** Civil date of a day number counted from 1970-01-01. *)
Definition civil_from_days (days : Z) : Z * Z * Z :=
  let z := days + 719468 in
  let era := z / 146097 in
  let doe := z - era * 146097 in
  let yoe := (doe - doe / 1460 + doe / 36524 - doe / 146096) / 365 in
  let doy := doe - (365 * yoe + yoe / 4 - yoe / 100) in
  let mp := (5 * doy + 2) / 153 in
  let d := doy - (153 * mp + 2) / 5 + 1 in
  let m := if (mp <? 10)%Z then mp + 3 else mp - 9 in
  let y := yoe + era * 400 + (if (m <=? 2)%Z then 1 else 0) in
  (y, m, d).

Definition digit (n : Z) : ascii := ascii_of_N (48 + Z.to_N (n mod 10)).

Definition two_digits (n : Z) : string :=
  String (digit (n / 10)) (String (digit n) EmptyString).

Definition four_digits (n : Z) : string :=
  String (digit (n / 1000)) (String (digit (n / 100)) (two_digits n)).

(** ['%Y-%m-%d'] *)
Definition strftime_ymd (t : Z) : string :=
  let '(y, m, d) := civil_from_days (t / 86400) in
  four_digits y ++ "-" ++ two_digits m ++ "-" ++ two_digits d.

#[export] Instance clock : LocalTime := {| local_date := strftime_ymd |}.
End UTC.

(* ================================================================== *)
(** * The decoded response, [fetch_data] and [main]

    [response.json()] is a dictionary of dictionaries and lists in which any
    member may be missing.  A subscript [d[k]] on a dictionary without [k]
    raises [KeyError], [l[0]] on an empty list raises [IndexError]; the
    engine is mutated in place, so what was done before an exception
    stays done.  This is a state and exception monad over the engine.

    The model covers missing members and empty lists.  It takes every
    time stamp to be one [datetime.fromtimestamp] converts, every member
    that is present to have the type the program expects, and the output
    file to be writable: the [ValueError], [TypeError], [AttributeError]
    and [OSError] of the other cases are not part of it. *)

(** The exceptions the subscripts of the program raise. *)
Inductive exn : Type :=
| KeyError (key : string)
| IndexError.

(** How a call ends: with a value or with an exception. *)
Inductive outcome (A : Type) : Type :=
| Return (a : A)
| Raise (e : exn).
Arguments Return {A} a.
Arguments Raise {A} e.

Section Monad.
Context {S : Type}.

Definition M (A : Type) : Type := S -> S * outcome A.

Definition ret {A : Type} (a : A) : M A := fun s => (s, Return a).

Definition raise {A : Type} (e : exn) : M A := fun s => (s, Raise e).

Definition bind {A B : Type} (m : M A) (k : A -> M B) : M B :=
  fun s =>
    match m s with
    | (s', Return a) => k a s'
    | (s', Raise e) => (s', Raise e)
    end.

(** An assignment to attributes of [self]. *)
Definition modify (f : S -> S) : M unit := fun s => (f s, Return tt).

(** [d[key]] for a dictionary member that may be missing. *)
Definition subscript {A : Type} (key : string) (member : option A) : M A :=
  match member with
  | Some a => ret a
  | None => raise (KeyError key)
  end.

(** [l[0]] *)
Definition first_item {A : Type} (l : list A) : M A :=
  match l with
  | a :: _ => ret a
  | [] => raise IndexError
  end.

(** [for x in l: body(x)] *)
Fixpoint for_each {A : Type} (body : A -> M unit) (l : list A) : M unit :=
  match l with
  | [] => ret tt
  | a :: l' => bind (body a) (fun _ => for_each body l')
  end.

(** [try: body  except KeyError: return False]; any other exception
    propagates. *)
Definition except_KeyError (body : M bool) : M bool :=
  fun s =>
    match body s with
    | (s', Raise (KeyError _)) => (s', Return false)
    | r => r
    end.
End Monad.

Notation "x <- m ;; k" := (bind m (fun x => k))
  (at level 61, m at next level, right associativity).
Notation "m ;;; k" := (bind m (fun _ => k))
  (at level 61, right associativity).

Section ResponseModel.
Context {F : Type} {PF : PyFloat F} {LT : LocalTime}.

(** [forecast['main']] *)
Record RawMain : Type := mkRawMain {
  m_temp     : option F;        (* ['temp'] *)
  m_humidity : option Z         (* ['humidity'] *)
}.

(** An element of [forecast['weather']] *)
Record RawWeather : Type := mkRawWeather {
  w_main : option string        (* ['main'] *)
}.

(** An element of [data['list']] *)
Record RawForecast : Type := mkRawForecast {
  r_dt      : option Z;                   (* ['dt'] *)
  r_main    : option RawMain;             (* ['main'] *)
  r_weather : option (list RawWeather);   (* ['weather'] *)
  r_rain    : option (option F);          (* .get('rain') and its '3h' *)
  r_snow    : option (option F)           (* .get('snow') and its '3h' *)
}.

(** [data['city']] *)
Record RawCity : Type := mkRawCity {
  c_name : option string        (* ['name'] *)
}.

(** [data = response.json()] *)
Record RawData : Type := mkRawData {
  d_city : option RawCity;              (* ['city'] *)
  d_list : option (list RawForecast)    (* ['list'] *)
}.

(** What [requests.get], [raise_for_status] and [response.json] give: a
    [RequestException] or the decoded body. *)
Inductive http_result : Type :=
| RequestException
| Response (data : RawData).

(** Lines 127-128: the day of [date_str] exists afterwards. *)
Definition ensure_day (date_str : string) (self : WeatherForecast F) : WeatherForecast F :=
  {| api_key := api_key self; city := city self; country := country self;
     daily_data :=
       if negb (dict_mem date_str (daily_data self))
       then dict_set date_str (WeatherData_init date_str) (daily_data self)
       else daily_data self;
     max_humidity := max_humidity self;
     location_name := location_name self |}.

(** Line 140 *)
Definition update_max_humidity (humidity : Z) (self : WeatherForecast F) : WeatherForecast F :=
  {| api_key := api_key self; city := city self; country := country self;
     daily_data := daily_data self;
     max_humidity := Z.max (max_humidity self) humidity;
     location_name := location_name self |}.

(** Line 143 *)
Definition add_to_day (date_str : string) (temp : F) (weather : string) (rain snow : F)
           (self : WeatherForecast F) : WeatherForecast F :=
  {| api_key := api_key self; city := city self; country := country self;
     daily_data :=
       dict_update date_str (fun day => add_sample day temp weather rain snow)
         (daily_data self);
     max_humidity := max_humidity self;
     location_name := location_name self |}.

(** Line 92 *)
Definition set_location_name (name : string) (self : WeatherForecast F) : WeatherForecast F :=
  {| api_key := api_key self; city := city self; country := country self;
     daily_data := daily_data self;
     max_humidity := max_humidity self;
     location_name := name |}.

(** The body of the loop of [_process_forecasts] on the decoded response,
    with the subscripts in the order of the source. *)
Definition raw_process_forecast (today_str : string) (forecast : RawForecast)
  : M (S := WeatherForecast F) unit :=
  t <- subscript "dt" (r_dt forecast) ;;
  let date_str := local_date t in
  if String.eqb date_str today_str then ret tt
  else
    modify (ensure_day date_str) ;;;
    main <- subscript "main" (r_main forecast) ;;
    temp <- subscript "temp" (m_temp main) ;;
    weather <- subscript "weather" (r_weather forecast) ;;
    weather0 <- first_item weather ;;
    weather_main <- subscript "main" (w_main weather0) ;;
    humidity <- subscript "humidity" (m_humidity main) ;;
    let rain := get_3h (r_rain forecast) in
    let snow := get_3h (r_snow forecast) in
    modify (update_max_humidity humidity) ;;;
    modify (add_to_day date_str temp weather_main rain snow).

(** [_process_forecasts] on the decoded response. *)
Definition raw_process_forecasts (now : Z) (forecasts : list RawForecast)
  : M (S := WeatherForecast F) unit :=
  let today_str := local_date now in
  for_each (raw_process_forecast today_str) forecasts.

(** [WeatherForecast.fetch_data], from the outcome of the HTTP request on. *)
Definition fetch_data (now : Z) (http : http_result) : M (S := WeatherForecast F) bool :=
  match http with
  | RequestException => ret false
  | Response data =>
      except_KeyError
        (city_obj <- subscript "city" (d_city data) ;;
         name <- subscript "name" (c_name city_obj) ;;
         modify (set_location_name name) ;;;
         forecasts <- subscript "list" (d_list data) ;;
         raw_process_forecasts now forecasts ;;;
         ret true)
  end.

(** How the program ends. *)
Inductive exit_status : Type :=
| Completed (report : Report F)    (* [generate_report] is reached with this report *)
| Exit1                            (* [exit(1)], nothing is written *)
| Traceback (e : exn).             (* uncaught exception, nothing is written *)

(** [main], with the command line options as arguments. *)
Definition main (city country api_key : string) (now : Z) (http : http_result)
  : exit_status :=
  let forecast := WeatherForecast_init api_key city country in
  match fetch_data now http forecast with
  | (forecast', Return true) => Completed (generate_report forecast')
  | (_, Return false) => Exit1
  | (_, Raise e) => Traceback e
  end.

(** The typed forecast of a raw one that has every member the loop body
    reads. *)
Definition decode (forecast : RawForecast) : option (Forecast F) :=
  match r_dt forecast, r_main forecast, r_weather forecast with
  | Some t, Some main, Some (weather0 :: _) =>
      match m_temp main, w_main weather0, m_humidity main with
      | Some temp, Some weather, Some humidity =>
          Some {| dt := t; main_temp := temp; main_humidity := humidity;
                  weather_main := weather;
                  rain := r_rain forecast; snow := r_snow forecast |}
      | _, _, _ => None
      end
  | _, _, _ => None
  end.

(** The typed forecasts of the raw ones that are not of today, when every
    raw forecast has its ['dt'] and those not of today decode. *)
Fixpoint decode_list (today_str : string) (forecasts : list RawForecast)
  : option (list (Forecast F)) :=
  match forecasts with
  | [] => Some []
  | forecast :: rest =>
      match r_dt forecast with
      | None => None
      | Some t =>
          if String.eqb (local_date t) today_str then decode_list today_str rest
          else
            match decode forecast, decode_list today_str rest with
            | Some f, Some fs => Some (f :: fs)
            | _, _ => None
            end
      end
  end.

(** The raw forecast with every member present. *)
Definition encode (f : Forecast F) : RawForecast :=
  {| r_dt := Some (dt f);
     r_main := Some {| m_temp := Some (main_temp f);
                       m_humidity := Some (main_humidity f) |};
     r_weather := Some [ {| w_main := Some (weather_main f) |} ];
     r_rain := rain f; r_snow := snow f |}.

(** Every day of the dictionary is stored under its own date, once. *)
Definition well_keyed (m : dict (WeatherData F)) : Prop :=
  NoDup (map fst m) /\ Forall (fun kv => date (snd kv) = fst kv) m.
End ResponseModel.

Arguments RawMain F : clear implicits.
Arguments RawForecast F : clear implicits.
Arguments RawData F : clear implicits.
Arguments http_result F : clear implicits.
Arguments exit_status F : clear implicits.

(* ================================================================== *)
(** * Concrete inputs

    Inputs on which the model is evaluated: a process in UTC started on
    2025-11-03, with CPython floats. *)

Module Scenario.
Import Binary64 UTC.

(** 2025-11-03 00:00:00 UTC *)
Definition now_ts : Z := 1762128000.

Definition forecast_at (t : Z) (temp : float) (weather : string) (humidity : Z)
           (rain_3h : option float) : Forecast float :=
  {| dt := t; main_temp := temp; main_humidity := humidity;
     weather_main := weather;
     rain := option_map Some rain_3h; snow := None |}.

(** A forecast of the current day (2025-11-03 12:00 UTC). *)
Definition today_noon : Forecast float :=
  forecast_at 1762171200 12%float "Clouds" 95 (Some 2.5%float).

(** 0.04 mm of rain on each of 2025-11-04 and 2025-11-05. *)
Definition drizzle_two_days : list (Forecast float) :=
  [ forecast_at 1762214400 10%float "Rain" 80 (Some 0.04%float);
    forecast_at 1762300800 10%float "Rain" 80 (Some 0.04%float) ].

Definition fresh_engine : WeatherForecast float :=
  WeatherForecast_init "key" "Paris" "fr".

(** Calls of [add_sample] of one day. *)
Definition clear_20 : Sample float :=
  {| s_temp := 20%float; s_weather := "Clear"; s_rain := 0%float; s_snow := 0%float |}.
Definition clear_22 : Sample float :=
  {| s_temp := 22%float; s_weather := "Clear"; s_rain := 0%float; s_snow := 0%float |}.
Definition rain_24 : Sample float :=
  {| s_temp := 24%float; s_weather := "Rain"; s_rain := 2%float; s_snow := 0%float |}.
Definition rain_30 : Sample float :=
  {| s_temp := 30%float; s_weather := "Rain"; s_rain := 2%float; s_snow := 0%float |}.
End Scenario.

(** Decoded responses for the same process. *)
Module RawScenario.
Import Binary64 UTC Scenario.

Definition response_of (name : string) (forecasts : list (RawForecast float))
  : RawData float :=
  {| d_city := Some {| c_name := Some name |}; d_list := Some forecasts |}.

(** 2025-11-04, with an empty ['weather'] list. *)
Definition empty_weather : RawForecast float :=
  {| r_dt := Some 1762214400;
     r_main := Some {| m_temp := Some 10%float; m_humidity := Some 80 |};
     r_weather := Some [];
     r_rain := None; r_snow := None |}.

(** 2025-11-06, without ['main']. *)
Definition no_main : RawForecast float :=
  {| r_dt := Some 1762387200;
     r_main := None;
     r_weather := Some [ {| w_main := Some "Rain" |} ];
     r_rain := None; r_snow := None |}.

(** An engine that already holds two days. *)
Definition engine_with_two_days : WeatherForecast float :=
  _process_forecasts now_ts fresh_engine drizzle_two_days.

(** Two forecasts of 2025-11-04 without precipitation members. *)
Definition dry_day : list (Forecast float) :=
  [ forecast_at 1762214400 10%float "Clear" 40 None;
    forecast_at 1762225200 15%float "Clouds" 55 None ].

(** Two calls of one day with 0.1 mm and 0.25 mm of rain. *)
Definition rain_tenth : Sample float :=
  {| s_temp := 10%float; s_weather := "Rain"; s_rain := 0.1%float; s_snow := 0%float |}.
Definition rain_quarter : Sample float :=
  {| s_temp := 11%float; s_weather := "Rain"; s_rain := 0.25%float; s_snow := 0%float |}.
End RawScenario.

Local Open Scope list_scope.

(** Order laws of the arithmetic on non-negative numbers. *)
Class NonnegOrder (F : Type) {PF : PyFloat F} : Prop := {
  zero_le_zero : f_leb f_zero f_zero = true;
  add_nonneg : forall x y : F,
    f_leb f_zero x = true -> f_leb f_zero y = true ->
    f_leb f_zero (f_add x y) = true;
  le_add_nonneg : forall x y : F,
    f_leb f_zero x = true -> f_leb f_zero y = true ->
    f_leb x (f_add x y) = true
}.

(* ================================================================== *)
(** * Properties of [WeatherData] *)

Section WeatherDataFacts.
Context {F : Type} {PF : PyFloat F}.

Lemma py_last_app {A : Type} (l : list A) (x : A) : py_last (l ++ [x]) = Some x.
Proof.
  induction l as [|a l IH]; simpl; [reflexivity|].
  destruct (l ++ [x]) eqn:E; [now destruct l | exact IH].
Qed.

Lemma py_last_cons {A : Type} (a : A) (l : list A) :
  py_last (a :: l) = match py_last l with Some x => Some x | None => Some a end.
Proof.
  revert a; induction l as [|b l IH]; intros a; [reflexivity|].
  change (py_last (a :: b :: l)) with (py_last (b :: l)).
  rewrite (IH b). now destruct (py_last l).
Qed.

Lemma py_last_map {A B : Type} (f : A -> B) (l : list A) :
  py_last (map f l) = option_map f (py_last l).
Proof.
  induction l as [|a l IH]; [reflexivity|].
  change (map f (a :: l)) with (f a :: map f l).
  rewrite !py_last_cons, IH. now destruct (py_last l).
Qed.

Lemma add_samples_snoc (self : WeatherData F) l s :
  add_samples self (l ++ [s]) = add_call (add_samples self l) s.
Proof. unfold add_samples. now rewrite fold_left_app. Qed.

Lemma date_add_samples (self : WeatherData F) l :
  date (add_samples self l) = date self.
Proof. revert self; induction l as [|s l IH]; intros; simpl; [|rewrite IH]; reflexivity. Qed.

Lemma samples_add_samples (self : WeatherData F) l :
  samples (add_samples self l) = samples self ++ map sample_pair l.
Proof.
  revert self; induction l as [|s l IH]; intros self; simpl.
  - now rewrite app_nil_r.
  - rewrite IH. simpl. now rewrite <- app_assoc.
Qed.

Lemma rain_add_samples (self : WeatherData F) l :
  rain_mm (add_samples self l) = fold_left f_add (map s_rain l) (rain_mm self).
Proof. revert self; induction l as [|s l IH]; intros; simpl; [|rewrite IH]; reflexivity. Qed.

Lemma snow_add_samples (self : WeatherData F) l :
  snow_mm (add_samples self l) = fold_left f_add (map s_snow l) (snow_mm self).
Proof. revert self; induction l as [|s l IH]; intros; simpl; [|rewrite IH]; reflexivity. Qed.

(** The effect of one call on the counter, from the last stored pair. *)
Lemma transitions_add (self : WeatherData F) s :
  transitions (add_call self s) =
  transitions self +
  match py_last (samples self) with
  | Some p => if major_transition p (s_temp s) (s_weather s) then 1 else 0
  | None => 0
  end.
Proof.
  unfold add_call, add_sample; simpl.
  destruct (py_last (samples self)) as [p|]; [|lia].
  destruct (major_transition p (s_temp s) (s_weather s)); lia.
Qed.

(** The last call of a sequence is the last stored pair. *)
Lemma last_pair_add_samples d0 (l : list (Sample F)) :
  py_last (samples (add_samples (WeatherData_init d0) l)) = option_map sample_pair (py_last l).
Proof. rewrite samples_add_samples. simpl. apply py_last_map. Qed.

Lemma count_transitions_app (p : option (Sample F)) l1 l2 :
  count_transitions p (l1 ++ l2) =
  count_transitions p l1 +
  count_transitions (match py_last l1 with Some s => Some s | None => p end) l2.
Proof.
  revert p; induction l1 as [|a l1 IH]; intros p.
  - simpl. lia.
  - change ((a :: l1) ++ l2) with (a :: (l1 ++ l2)).
    cbn [count_transitions]. rewrite IH, py_last_cons.
    destruct (py_last l1); lia.
Qed.

(** The counter after a sequence of calls on a fresh object. *)
Lemma transitions_add_samples d0 (l : list (Sample F)) :
  transitions (add_samples (WeatherData_init d0) l) = count_transitions None l.
Proof.
  induction l as [|s l IH] using rev_ind; [reflexivity|].
  rewrite add_samples_snoc, transitions_add, last_pair_add_samples, IH.
  rewrite count_transitions_app. cbn [count_transitions].
  destruct (py_last l) as [p|]; simpl; [|lia].
  change (if major_transition (sample_pair p) (s_temp s) (s_weather s) then 1 else 0)
    with (transition_step (Some p) s). lia.
Qed.
End WeatherDataFacts.

(** ** Refinement: the whole list against the last pair *)

Section Refinement.
Context {F : Type} {PF : PyFloat F}.

Lemma represents_init d0 : represents (WeatherData_init d0) (DailyAggregate_init d0).
Proof. repeat split. Qed.

Lemma represents_add w a s : represents w a -> represents (add_call w s) (agg_add a s).
Proof.
  intros (Hd & Hr & Hs & Ht & Hp).
  unfold represents, add_call, agg_add, add_sample, agg_add_sample; cbn.
  rewrite Hd, Hr, Hs, Ht, Hp, py_last_app.
  repeat split.
  destruct (last_sample a) as [[pt pw]|]; reflexivity.
Qed.

Lemma represents_add_samples l : forall w a,
  represents w a -> represents (add_samples w l) (agg_add_samples a l).
Proof.
  induction l as [|s l IH]; intros w a H; [exact H|].
  apply (IH (add_call w s) (agg_add a s)), represents_add, H.
Qed.

Lemma represents_to_dict w a : represents w a -> to_dict w = to_summary a.
Proof.
  intros (Hd & Hr & Hs & Ht & _). unfold to_dict, to_summary.
  now rewrite Hd, Hr, Hs, Ht.
Qed.
End Refinement.

(** ** The claims on [WeatherData] *)

Section WeatherDataClaims.
Context {F : Type} {PF : PyFloat F}.

(** C2. On a fresh [WeatherData] the first call of [add_sample] leaves
    [transitions] at [0].  After any calls [l] followed by the call [p],
    the next call [s] adds exactly one to [transitions] when the category
    of [s] differs from that of [p], the call immediately before it, and
    [abs(temp - prev_temp) > 3]; in every other case (same category, or a
    difference that is not above 3) it leaves [transitions] unchanged.  The
    calls of [l], before [p], play no part. *)
Theorem add_sample_transition_rule
  (d0 : string) (l : list (Sample F)) (p s : Sample F) :
  transitions (add_call (WeatherData_init d0) s) = 0%Z /\
  transitions (add_call (add_samples (WeatherData_init d0) (l ++ [p])) s) =
  (transitions (add_samples (WeatherData_init d0) (l ++ [p])) +
   if negb (String.eqb (s_weather s) (s_weather p))
      && f_ltb (f_of_Z 3) (f_abs (f_sub (s_temp s) (s_temp p)))
   then 1 else 0)%Z.
Proof.
  split; [reflexivity|].
  rewrite transitions_add, last_pair_add_samples, py_last_app.
  reflexivity.
Qed.

(** C3 (amended). Inserting, directly after a call [p], a call [q] of the
    same category whose temperature is within 3 of that of [p] leaves the
    final [transitions] unchanged, provided the call that follows the
    insertion point (if there is one) is a major transition after [q]
    exactly when it is one after [p]; in particular when [q] is inserted at
    the end. *)
Theorem quiet_insertion_preserves_transitions
  (d0 : string) (l1 l2 : list (Sample F)) (p q : Sample F) :
  py_last l1 = Some p ->
  s_weather q = s_weather p ->
  f_leb (f_abs (f_sub (s_temp q) (s_temp p))) (f_of_Z 3) = true ->
  (forall n, hd_error l2 = Some n ->
             transition_step (Some q) n = transition_step (Some p) n) ->
  transitions (add_samples (WeatherData_init d0) (l1 ++ q :: l2)) =
  transitions (add_samples (WeatherData_init d0) (l1 ++ l2)).
Proof.
  intros Hlast Hcat _ Hnext.
  rewrite !transitions_add_samples, !count_transitions_app, Hlast.
  f_equal. cbn [count_transitions].
  assert (Hq : transition_step (Some p) q = 0).
  { unfold transition_step. now rewrite Hcat, String.eqb_refl. }
  rewrite Hq.
  destruct l2 as [|n l2]; [reflexivity|].
  cbn [count_transitions]. now rewrite (Hnext n eq_refl).
Qed.

(** C7 (amended). After any sequence of calls on a fresh [WeatherData],
    [rain_mm] and [snow_mm] are the left-to-right float sums of the amounts
    passed: they are added one by one from [0.0] with the program's [+]
    (each addition rounded as the arithmetic rounds it) and with no
    rounding to one decimal in between; [round(., 1)] is applied once, by
    [to_dict]. *)
Theorem accumulation_is_unrounded_sum (d0 : string) (l : list (Sample F)) :
  rain_mm (add_samples (WeatherData_init d0) l)
    = fold_left f_add (map s_rain l) f_zero /\
  snow_mm (add_samples (WeatherData_init d0) l)
    = fold_left f_add (map s_snow l) f_zero /\
  rain_cumul_mm (to_dict (add_samples (WeatherData_init d0) l))
    = f_round1 (fold_left f_add (map s_rain l) f_zero) /\
  snow_cumul_mm (to_dict (add_samples (WeatherData_init d0) l))
    = f_round1 (fold_left f_add (map s_snow l) f_zero).
Proof.
  unfold to_dict; cbn [rain_cumul_mm snow_cumul_mm].
  rewrite rain_add_samples, snow_add_samples. repeat split.
Qed.

Lemma nonneg_totals {NO : NonnegOrder F} (d0 : string) (l : list (Sample F)) :
  Forall nonneg_sample l ->
  f_leb f_zero (rain_mm (add_samples (WeatherData_init d0) l)) = true /\
  f_leb f_zero (snow_mm (add_samples (WeatherData_init d0) l)) = true.
Proof.
  induction l as [|s l IH] using rev_ind; intros Hl.
  - split; apply zero_le_zero.
  - apply Forall_app in Hl. destruct Hl as [Hl Hs].
    inversion Hs as [|? ? [Hr Hw] _]; subst.
    destruct (IH Hl) as [IHr IHs].
    rewrite add_samples_snoc. unfold add_call, add_sample; cbn [rain_mm snow_mm].
    split; apply add_nonneg; assumption.
Qed.

(** C8. With non-negative rain and snow in every call, no call of
    [add_sample] decreases [rain_mm], [snow_mm] or [transitions]. *)
Theorem add_sample_monotone {NO : NonnegOrder F}
  (d0 : string) (l : list (Sample F)) (s : Sample F) :
  Forall nonneg_sample l ->
  nonneg_sample s ->
  f_leb (rain_mm (add_samples (WeatherData_init d0) l))
        (rain_mm (add_call (add_samples (WeatherData_init d0) l) s)) = true /\
  f_leb (snow_mm (add_samples (WeatherData_init d0) l))
        (snow_mm (add_call (add_samples (WeatherData_init d0) l) s)) = true /\
  (transitions (add_samples (WeatherData_init d0) l)
   <= transitions (add_call (add_samples (WeatherData_init d0) l) s))%Z.
Proof.
  intros Hl [Hr Hs].
  destruct (nonneg_totals d0 l Hl) as [H0r H0s].
  repeat split.
  - unfold add_call, add_sample; cbn [rain_mm]. now apply le_add_nonneg.
  - unfold add_call, add_sample; cbn [snow_mm]. now apply le_add_nonneg.
  - rewrite transitions_add.
    destruct (py_last (samples (add_samples (WeatherData_init d0) l))) as [p|]; [|lia].
    destruct (major_transition p (s_temp s) (s_weather s)); lia.
Qed.

(** C9. For every sequence of calls, [to_dict] of the [WeatherData] that
    stores all samples equals the summary of the aggregator that keeps only
    the most recent (temperature, category) pair. *)
Theorem last_sample_refinement (d0 : string) (l : list (Sample F)) :
  to_dict (add_samples (WeatherData_init d0) l)
  = to_summary (agg_add_samples (DailyAggregate_init d0) l).
Proof.
  apply represents_to_dict, represents_add_samples, represents_init.
Qed.
End WeatherDataClaims.

(* ================================================================== *)
(** * Properties of the dictionary *)

Section DictFacts.
Context {V : Type}.
Implicit Types (m : dict V) (k d : string).

Lemma dict_get_set_same k (v : V) m : dict_get k (dict_set k v m) = Some v.
Proof.
  induction m as [|[k' v'] m IH]; simpl.
  - now rewrite String.eqb_refl.
  - destruct (String.eqb k k') eqn:E; simpl; rewrite E; [reflexivity | exact IH].
Qed.

Lemma dict_get_set_other k d (v : V) m :
  k <> d -> dict_get d (dict_set k v m) = dict_get d m.
Proof.
  intros Hkd. induction m as [|[k' v'] m IH]; simpl.
  - apply String.eqb_neq in Hkd. now rewrite String.eqb_sym, Hkd.
  - destruct (String.eqb k k') eqn:E; simpl.
    + apply String.eqb_eq in E; subst k'.
      apply String.eqb_neq in Hkd. now rewrite String.eqb_sym, Hkd.
    + now rewrite IH.
Qed.

Lemma dict_get_update_same k (f : V -> V) m :
  dict_get k (dict_update k f m) = option_map f (dict_get k m).
Proof.
  induction m as [|[k' v'] m IH]; simpl; [reflexivity|].
  destruct (String.eqb k k') eqn:E; simpl; rewrite E; [reflexivity | exact IH].
Qed.

Lemma dict_get_update_other k d (f : V -> V) m :
  k <> d -> dict_get d (dict_update k f m) = dict_get d m.
Proof.
  intros Hkd. induction m as [|[k' v'] m IH]; simpl; [reflexivity|].
  destruct (String.eqb k k') eqn:E; simpl.
  - apply String.eqb_eq in E; subst k'.
    apply String.eqb_neq in Hkd. now rewrite String.eqb_sym, Hkd.
  - now rewrite IH.
Qed.

Lemma dict_mem_map (g : string -> V) k (ds : list string) :
  dict_mem k (map (fun d => (d, g d)) ds) = existsb (String.eqb k) ds.
Proof.
  unfold dict_mem. induction ds as [|d ds IH]; simpl; [reflexivity|].
  destruct (String.eqb k d); [reflexivity | exact IH].
Qed.

Lemma dict_set_fresh k (v : V) m :
  dict_mem k m = false -> dict_set k v m = m ++ [(k, v)].
Proof.
  unfold dict_mem. induction m as [|[k' v'] m IH]; simpl; [reflexivity|].
  destruct (String.eqb k k'); [discriminate|].
  intros H. now rewrite IH.
Qed.

Lemma dict_update_fresh_end k (f : V -> V) (v : V) m :
  dict_mem k m = false -> dict_update k f (m ++ [(k, v)]) = m ++ [(k, f v)].
Proof.
  unfold dict_mem. induction m as [|[k' v'] m IH]; simpl.
  - now rewrite String.eqb_refl.
  - destruct (String.eqb k k'); [discriminate|].
    intros H. now rewrite IH.
Qed.

Lemma existsb_eqb_In k (ds : list string) :
  existsb (String.eqb k) ds = true <-> In k ds.
Proof.
  rewrite existsb_exists. split.
  - intros (x & Hx & E). apply String.eqb_eq in E. now subst.
  - intros H. exists k. split; [exact H | apply String.eqb_refl].
Qed.

Lemma existsb_eqb_not_In k (ds : list string) :
  existsb (String.eqb k) ds = false <-> ~ In k ds.
Proof.
  rewrite <- existsb_eqb_In. destruct (existsb (String.eqb k) ds); split; congruence.
Qed.

(** Updating the only binding of [k] in a dictionary built from its keys. *)
Lemma dict_update_map (g : string -> V) (f : V -> V) k (ds : list string) :
  NoDup ds ->
  dict_update k f (map (fun d => (d, g d)) ds)
  = map (fun d => (d, if String.eqb k d then f (g d) else g d)) ds.
Proof.
  induction ds as [|d ds IH]; intros Hnd; simpl; [reflexivity|].
  inversion Hnd as [|? ? Hnotin Hnd']; subst.
  destruct (String.eqb k d) eqn:E.
  - apply String.eqb_eq in E; subst d. f_equal.
    apply map_ext_in. intros d Hd.
    destruct (String.eqb k d) eqn:E'; [|reflexivity].
    apply String.eqb_eq in E'; subst d. contradiction.
  - f_equal. now apply IH.
Qed.
End DictFacts.

(* ================================================================== *)
(** * Properties of [_process_forecasts] *)

Section EngineFacts.
Context {F : Type} {PF : PyFloat F} {LT : LocalTime}.
Implicit Types (self : WeatherForecast F) (f : Forecast F) (fs : list (Forecast F)).

Lemma process_forecast_today today self f :
  date_of f = today -> process_forecast today self f = self.
Proof.
  unfold date_of, process_forecast. intros ->. now rewrite String.eqb_refl.
Qed.

Lemma process_forecasts_app now self fs1 fs2 :
  _process_forecasts now self (fs1 ++ fs2)
  = _process_forecasts now (_process_forecasts now self fs1) fs2.
Proof. unfold _process_forecasts. now rewrite fold_left_app. Qed.

Lemma process_forecasts_cons now self f fs :
  _process_forecasts now self (f :: fs)
  = _process_forecasts now (process_forecast (local_date now) self f) fs.
Proof. reflexivity. Qed.

Lemma process_forecasts_snoc now self fs f :
  _process_forecasts now self (fs ++ [f])
  = process_forecast (local_date now) (_process_forecasts now self fs) f.
Proof. now rewrite process_forecasts_app. Qed.

(** The dictionary after one forecast of another day than today. *)
Lemma daily_data_process_forecast today self f :
  date_of f <> today ->
  daily_data (process_forecast today self f)
  = dict_update (date_of f) (fun w => add_call w (sample_of f))
      (if negb (dict_mem (date_of f) (daily_data self))
       then dict_set (date_of f) (WeatherData_init (date_of f)) (daily_data self)
       else daily_data self).
Proof.
  intros H. apply String.eqb_neq in H.
  unfold process_forecast. fold (date_of f). now rewrite H.
Qed.

Lemma dict_get_process_same today self f :
  date_of f <> today ->
  dict_get (date_of f) (daily_data (process_forecast today self f))
  = Some (add_call (day_or_fresh (date_of f) (daily_data self)) (sample_of f)).
Proof.
  intros H. rewrite (daily_data_process_forecast _ _ _ H), dict_get_update_same.
  unfold day_or_fresh, dict_mem.
  destruct (dict_get (date_of f) (daily_data self)) as [w|] eqn:E; cbn [negb].
  - now rewrite E.
  - now rewrite dict_get_set_same.
Qed.

Lemma dict_get_process_other today self f d :
  date_of f <> d ->
  dict_get d (daily_data (process_forecast today self f))
  = dict_get d (daily_data self).
Proof.
  intros Hd. destruct (String.eqb_spec (date_of f) today) as [E|E].
  - now rewrite process_forecast_today.
  - rewrite (daily_data_process_forecast _ _ _ E), dict_get_update_other by exact Hd.
    destruct (negb (dict_mem (date_of f) (daily_data self))); [|reflexivity].
    now apply dict_get_set_other.
Qed.

(** ** The dates of the input *)

Lemma day_dates_snoc today fs f :
  day_dates today (fs ++ [f])
  = if String.eqb (date_of f) today || existsb (String.eqb (date_of f)) (day_dates today fs)
    then day_dates today fs
    else day_dates today fs ++ [date_of f].
Proof. unfold day_dates. now rewrite fold_left_app. Qed.

Lemma in_day_dates today fs d :
  In d (day_dates today fs) <-> d <> today /\ In d (map date_of fs).
Proof.
  induction fs as [|f fs IH] using rev_ind.
  - simpl. tauto.
  - rewrite day_dates_snoc, map_app, in_app_iff. simpl.
    destruct (String.eqb_spec (date_of f) today) as [E|E]; cbn [orb].
    + rewrite IH. split; [tauto|]. intros [Hd [H|[H|[]]]]; [tauto|]. congruence.
    + destruct (existsb (String.eqb (date_of f)) (day_dates today fs)) eqn:Ex.
      * apply existsb_eqb_In in Ex. rewrite IH in *.
        split; [tauto|]. intros [Hd [H|[H|[]]]]; [tauto|]. subst d. tauto.
      * rewrite in_app_iff, IH. simpl. split.
        -- intros [H|[H|[]]]; [tauto|]. subst d. tauto.
        -- tauto.
Qed.

Lemma NoDup_day_dates today fs : NoDup (day_dates today fs).
Proof.
  induction fs as [|f fs IH] using rev_ind; [constructor|].
  rewrite day_dates_snoc.
  destruct (String.eqb (date_of f) today); cbn [orb]; [exact IH|].
  destruct (existsb (String.eqb (date_of f)) (day_dates today fs)) eqn:Ex; [exact IH|].
  apply existsb_eqb_not_In in Ex.
  apply NoDup_app; [exact IH | repeat constructor; intros [] | ].
  intros x Hx [E|[]]. subst x. contradiction.
Qed.

Lemma day_samples_snoc d fs f :
  day_samples d (fs ++ [f])
  = day_samples d fs ++ (if String.eqb (date_of f) d then [sample_of f] else []).
Proof.
  unfold day_samples. rewrite filter_app, map_app. simpl.
  now destruct (String.eqb (date_of f) d).
Qed.

Lemma day_samples_absent d fs :
  ~ In d (map date_of fs) -> day_samples d fs = [].
Proof.
  unfold day_samples. induction fs as [|f fs IH]; simpl; [reflexivity|].
  intros H. destruct (String.eqb_spec (date_of f) d) as [E|E]; [tauto|].
  apply IH. tauto.
Qed.

Lemma day_data_snoc d fs f :
  day_data d (fs ++ [f])
  = if String.eqb (date_of f) d then add_call (day_data d fs) (sample_of f) else day_data d fs.
Proof.
  unfold day_data. rewrite day_samples_snoc.
  destruct (String.eqb (date_of f) d).
  - apply add_samples_snoc.
  - now rewrite app_nil_r.
Qed.

Lemma date_day_data d fs : date (day_data d fs) = d.
Proof. unfold day_data. now rewrite date_add_samples. Qed.

(** ** The dictionary is determined by the input *)

Lemma daily_data_process_forecasts now self fs :
  daily_data self = [] ->
  daily_data (_process_forecasts now self fs) = days_of (local_date now) fs.
Proof.
  intros Hempty. induction fs as [|f fs IH] using rev_ind; [exact Hempty|].
  rewrite process_forecasts_snoc.
  set (st := _process_forecasts now self fs) in *.
  set (today := local_date now) in *.
  unfold days_of. rewrite day_dates_snoc.
  destruct (String.eqb_spec (date_of f) today) as [E|E]; cbn [orb].
  - rewrite process_forecast_today, IH by exact E. unfold days_of.
    apply map_ext_in. intros d Hd. rewrite day_data_snoc.
    destruct (String.eqb_spec (date_of f) d) as [E'|E']; [|reflexivity].
    apply in_day_dates in Hd. destruct Hd as [Hd _]. congruence.
  - rewrite (daily_data_process_forecast _ _ _ E), IH. unfold days_of.
    rewrite dict_mem_map.
    destruct (existsb (String.eqb (date_of f)) (day_dates today fs)) eqn:Ex; cbn [negb].
    + rewrite dict_update_map by apply NoDup_day_dates.
      apply map_ext. intros d. now rewrite day_data_snoc.
    + rewrite dict_set_fresh, dict_update_fresh_end
        by (rewrite dict_mem_map; exact Ex).
      rewrite map_app. cbn [map]. f_equal.
      * apply map_ext_in. intros d Hd. rewrite day_data_snoc.
        destruct (String.eqb_spec (date_of f) d) as [E'|E']; [|reflexivity].
        apply existsb_eqb_not_In in Ex. subst d. contradiction.
      * rewrite day_data_snoc, String.eqb_refl. do 3 f_equal.
        unfold day_data. rewrite day_samples_absent; [reflexivity|].
        apply existsb_eqb_not_In in Ex. rewrite in_day_dates in Ex. tauto.
Qed.
End EngineFacts.

(* ================================================================== *)
(** * The order on strings and [sorted] *)

Section StringOrder.

Lemma ascii_compare_refl (a : ascii) : Ascii.compare a a = Eq.
Proof. unfold Ascii.compare. apply N.compare_refl. Qed.

Lemma ascii_compare_lt_trans (a b c : ascii) :
  Ascii.compare a b = Lt -> Ascii.compare b c = Lt -> Ascii.compare a c = Lt.
Proof.
  unfold Ascii.compare. rewrite !N.compare_lt_iff. apply N.lt_trans.
Qed.

Lemma string_compare_refl (s : string) : String.compare s s = Eq.
Proof.
  induction s as [|a s IH]; simpl; [reflexivity|].
  now rewrite ascii_compare_refl.
Qed.

Lemma string_compare_lt_trans (s1 : string) : forall s2 s3,
  String.compare s1 s2 = Lt -> String.compare s2 s3 = Lt ->
  String.compare s1 s3 = Lt.
Proof.
  induction s1 as [|a s1 IH]; intros [|b s2] [|c s3]; simpl;
    try discriminate; try reflexivity.
  destruct (Ascii.compare a b) eqn:Eab; try discriminate;
    destruct (Ascii.compare b c) eqn:Ebc; try discriminate; intros H12 H23.
  - apply Ascii.compare_eq_iff in Eab, Ebc. subst b c.
    rewrite ascii_compare_refl. now apply (IH s2).
  - apply Ascii.compare_eq_iff in Eab. subst b. now rewrite Ebc.
  - apply Ascii.compare_eq_iff in Ebc. subst c. now rewrite Eab.
  - now rewrite (ascii_compare_lt_trans a b c).
Qed.

Lemma string_ltb_trans (s1 s2 s3 : string) :
  String.ltb s1 s2 = true -> String.ltb s2 s3 = true -> String.ltb s1 s3 = true.
Proof.
  unfold String.ltb. intros H12 H23.
  destruct (String.compare s1 s2) eqn:E12; try discriminate.
  destruct (String.compare s2 s3) eqn:E23; try discriminate.
  now rewrite (string_compare_lt_trans s1 s2 s3).
Qed.

Lemma string_ltb_asym (s1 s2 : string) :
  String.ltb s1 s2 = true -> String.ltb s2 s1 = false.
Proof.
  unfold String.ltb. rewrite (String.compare_antisym s2 s1).
  now destruct (String.compare s1 s2).
Qed.

Lemma string_ltb_connected (s1 s2 : string) :
  String.ltb s2 s1 = false -> s1 <> s2 -> String.ltb s1 s2 = true.
Proof.
  unfold String.ltb. rewrite (String.compare_antisym s2 s1).
  destruct (String.compare s1 s2) eqn:E; simpl; try discriminate; try reflexivity.
  apply String.compare_eq_iff in E. congruence.
Qed.
End StringOrder.

Section SortedFacts.
Context {A : Type} (key : A -> string).

(** [x] may stand before [y]: the key of [y] is not below the key of [x]. *)
Let key_le (x y : A) : Prop := String.ltb (key y) (key x) = false.
Let key_lt (x y : A) : Prop := String.ltb (key x) (key y) = true.

Lemma insert_by_perm (x : A) (l : list A) : Permutation (insert_by key x l) (x :: l).
Proof.
  induction l as [|y l IH]; simpl; [reflexivity|].
  destruct (String.ltb (key y) (key x)); [|reflexivity].
  rewrite IH. apply perm_swap.
Qed.

Lemma sorted_by_perm (l : list A) : Permutation (sorted_by key l) l.
Proof.
  induction l as [|x l IH]; simpl; [reflexivity|].
  rewrite insert_by_perm. now constructor.
Qed.

Lemma insert_by_hd (R : A -> A -> Prop) (a x : A) (l : list A) :
  R a x -> HdRel R a l -> HdRel R a (insert_by key x l).
Proof.
  intros Hax Hl. destruct l as [|y l]; simpl; [now constructor|].
  inversion Hl; subst.
  destruct (String.ltb (key y) (key x)); now constructor.
Qed.

Lemma insert_by_sorted (x : A) (l : list A) :
  Sorted key_le l -> Sorted key_le (insert_by key x l).
Proof.
  induction l as [|y l IH]; intros Hl; simpl.
  - repeat constructor.
  - inversion Hl as [|? ? Hs Hh]; subst.
    destruct (String.ltb (key y) (key x)) eqn:E.
    + constructor; [now apply IH|].
      apply insert_by_hd; [|exact Hh].
      unfold key_le. now apply string_ltb_asym.
    + constructor; [exact Hl|]. constructor. exact E.
Qed.

Lemma sorted_by_sorted (l : list A) : Sorted key_le (sorted_by key l).
Proof.
  induction l as [|x l IH]; simpl; [constructor | now apply insert_by_sorted].
Qed.

Lemma sorted_strict (l : list A) :
  Sorted key_le l -> NoDup (map key l) -> Sorted key_lt l.
Proof.
  induction 1 as [|a l Hs IH Hh]; intros Hnd; [constructor|].
  simpl in Hnd. inversion Hnd as [|? ? Hnotin Hnd']; subst.
  constructor; [now apply IH|].
  destruct Hh as [|b l' Hab]; constructor.
  apply string_ltb_connected; [exact Hab|].
  intros E. apply Hnotin. simpl. now left.
Qed.

(** With pairwise different keys the result is strictly increasing. *)
Lemma sorted_by_strongly_sorted (l : list A) :
  NoDup (map key l) -> StronglySorted key_lt (sorted_by key l).
Proof.
  intros Hnd. apply Sorted_StronglySorted.
  - intros x y z. apply string_ltb_trans.
  - apply sorted_strict; [apply sorted_by_sorted|].
    apply (Permutation_NoDup (l := map key l)); [|exact Hnd].
    apply Permutation_map, Permutation_sym, sorted_by_perm.
Qed.
End SortedFacts.

Lemma sorted_by_map {A B : Type} (kA : A -> string) (kB : B -> string) (g : A -> B) :
  (forall x, kB (g x) = kA x) ->
  forall l, sorted_by kB (map g l) = map g (sorted_by kA l).
Proof.
  intros Hk. induction l as [|x l IH]; simpl; [reflexivity|].
  rewrite IH. generalize (sorted_by kA l) as s.
  induction s as [|y s IHs]; simpl; [reflexivity|].
  rewrite !Hk. destruct (String.ltb (kA y) (kA x)); [now rewrite IHs | reflexivity].
Qed.

Lemma StronglySorted_map {A B : Type} (R : B -> B -> Prop) (g : A -> B) (l : list A) :
  StronglySorted (fun x y => R (g x) (g y)) l -> StronglySorted R (map g l).
Proof.
  induction 1 as [|a l Hs IH Hall]; simpl; constructor; [exact IH|].
  now apply Forall_map.
Qed.

(* ================================================================== *)
(** * The claims on the engine *)

Section EngineClaims.
Context {F : Type} {PF : PyFloat F} {LT : LocalTime}.
Implicit Types (self : WeatherForecast F) (f : Forecast F) (fs : list (Forecast F)).

Lemma daily_data_run_state api city country name now fs :
  daily_data
    (_process_forecasts now
       {| api_key := api; city := city; country := country;
          daily_data := []; max_humidity := 0; location_name := name |} fs)
  = days_of (local_date now) fs.
Proof. now apply daily_data_process_forecasts. Qed.

Lemma values_days_of today fs :
  dict_values (days_of today fs) = map (fun d => day_data d fs) (day_dates today fs).
Proof. unfold dict_values, days_of. rewrite map_map. reflexivity. Qed.

Lemma forecast_details_run api city country name now fs :
  forecast_details (run api city country name now fs)
  = map (fun d => to_dict (day_data d fs))
        (sorted_by (fun d => d) (day_dates (local_date now) fs)).
Proof.
  unfold run, generate_report; cbn [forecast_details].
  unfold WeatherForecast_init; cbn [daily_data max_humidity].
  rewrite daily_data_run_state, values_days_of.
  rewrite (sorted_by_map (fun d => d) date (fun d => day_data d fs))
    by (intros d; apply date_day_data).
  now rewrite map_map.
Qed.

(** C1 (amended). In every run, [total_rain_period_mm] is the sum, rounded
    once to one decimal, of the unrounded rain totals of the days (in the
    order in which the days first occur in the input), and every
    [rain_cumul_mm] is the total of its day rounded to one decimal; the same
    holds for snow.  The total is not computed from the rounded
    [rain_cumul_mm] values. *)
Theorem totals_round_the_unrounded_day_sums
  (api city country name : string) (now : Z) (fs : list (Forecast F)) :
  total_rain_period_mm (run api city country name now fs)
  = py_round1 (py_sum (map
      (fun d => fold_left f_add (map s_rain (day_samples d fs)) f_zero)
      (day_dates (local_date now) fs))) /\
  total_snow_period_mm (run api city country name now fs)
  = py_round1 (py_sum (map
      (fun d => fold_left f_add (map s_snow (day_samples d fs)) f_zero)
      (day_dates (local_date now) fs))) /\
  map rain_cumul_mm (forecast_details (run api city country name now fs))
  = map (fun d => f_round1 (fold_left f_add (map s_rain (day_samples d fs)) f_zero))
      (sorted_by (fun d => d) (day_dates (local_date now) fs)) /\
  map snow_cumul_mm (forecast_details (run api city country name now fs))
  = map (fun d => f_round1 (fold_left f_add (map s_snow (day_samples d fs)) f_zero))
      (sorted_by (fun d => d) (day_dates (local_date now) fs)).
Proof.
  rewrite forecast_details_run, !map_map.
  unfold run, generate_report; cbn [total_rain_period_mm total_snow_period_mm].
  unfold WeatherForecast_init; cbn [daily_data max_humidity].
  rewrite daily_data_run_state, values_days_of, !map_map.
  unfold day_data, to_dict; cbn [rain_cumul_mm snow_cumul_mm].
  repeat split.
  - do 2 f_equal. apply map_ext. intros d. apply rain_add_samples.
  - do 2 f_equal. apply map_ext. intros d. apply snow_add_samples.
  - apply map_ext. intros d. now rewrite rain_add_samples.
  - apply map_ext. intros d. now rewrite snow_add_samples.
Qed.

(** C4. A forecast whose local date is today's is skipped: the state of the
    engine after the whole input (every day's rain, snow and transitions,
    and the maximum humidity) is the one reached without that forecast. *)
Theorem today_forecast_is_skipped
  (now : Z) (self : WeatherForecast F) (pre post : list (Forecast F)) (f : Forecast F) :
  date_of f = local_date now ->
  _process_forecasts now self (pre ++ f :: post)
  = _process_forecasts now self (pre ++ post).
Proof.
  intros Htoday.
  rewrite !process_forecasts_app, process_forecasts_cons.
  now rewrite process_forecast_today.
Qed.

Lemma process_forecasts_all_today now self fs :
  Forall (fun f => date_of f = local_date now) fs ->
  _process_forecasts now self fs = self.
Proof.
  induction 1 as [|f fs Hf _ IH]; [reflexivity|].
  rewrite process_forecasts_cons, process_forecast_today; assumption.
Qed.

(** C6. In every run, [forecast_details] is strictly increasing in
    [date_local]: sorted in ascending order of the date strings, with no
    date occurring twice. *)
Theorem forecast_details_sorted_without_duplicates
  (api city country name : string) (now : Z) (fs : list (Forecast F)) :
  StronglySorted (fun a b => String.ltb (date_local a) (date_local b) = true)
    (forecast_details (run api city country name now fs)) /\
  NoDup (map date_local (forecast_details (run api city country name now fs))).
Proof.
  rewrite forecast_details_run.
  assert (Hs : StronglySorted (fun a b : string => String.ltb a b = true)
                 (sorted_by (fun d => d) (day_dates (local_date now) fs))).
  { apply (sorted_by_strongly_sorted (fun d : string => d)).
    rewrite map_id. apply NoDup_day_dates. }
  split.
  - apply StronglySorted_map.
    assert (Hd : forall d, date_local (to_dict (day_data d fs)) = d).
    { intros d. unfold to_dict; cbn [date_local]. apply date_day_data. }
    revert Hs. apply StronglySorted_ind; constructor; auto.
    rewrite Forall_forall in *. intros b Hb. rewrite !Hd. auto.
  - rewrite map_map.
    rewrite (map_ext _ (fun d => d))
      by (intros d; unfold to_dict; cbn [date_local]; apply date_day_data).
    rewrite map_id.
    apply (Permutation_NoDup (l := day_dates (local_date now) fs));
      [apply Permutation_sym, sorted_by_perm | apply NoDup_day_dates].
Qed.

Lemma dict_get_process_forecasts now fs : forall self d,
  dict_get d (daily_data (_process_forecasts now self fs))
  = if String.eqb d (local_date now) then dict_get d (daily_data self)
    else match day_samples d fs with
         | [] => dict_get d (daily_data self)
         | l => Some (add_samples (day_or_fresh d (daily_data self)) l)
         end.
Proof.
  induction fs as [|f fs IH]; intros self d.
  - simpl. now destruct (String.eqb d (local_date now)).
  - rewrite process_forecasts_cons, IH.
    destruct (String.eqb_spec d (local_date now)) as [Et|Et].
    + destruct (String.eqb_spec (date_of f) d) as [E|E].
      * rewrite process_forecast_today; [reflexivity | congruence].
      * now apply dict_get_process_other.
    + unfold day_samples at 2. cbn [filter].
      fold (day_samples d fs).
      destruct (String.eqb_spec (date_of f) d) as [E|E].
      * subst d. cbn [map].
        unfold day_or_fresh at 1.
        rewrite (dict_get_process_same _ _ _ Et).
        fold (day_samples (date_of f) fs).
        now destruct (day_samples (date_of f) fs).
      * unfold day_or_fresh.
        now rewrite (dict_get_process_other _ _ _ _ E).
Qed.

(** C10. One forecast changes, in the dictionary, only the object of its own
    date (created if absent) and, in the engine, only [daily_data] and
    [max_humidity]; the object of any other date is the same afterwards.
    Hence after the whole input the object of a date [d] is the one obtained
    by feeding the samples of [d], in input order, to the object [d] had
    before (or to a fresh one). *)
Theorem process_forecast_frame
  (now : Z) (self : WeatherForecast F) (f : Forecast F) (fs : list (Forecast F))
  (d : string) :
  dict_get d (daily_data (process_forecast (local_date now) self f))
  = (if String.eqb (date_of f) d && negb (String.eqb d (local_date now))
     then Some (add_call (day_or_fresh d (daily_data self)) (sample_of f))
     else dict_get d (daily_data self)) /\
  api_key (process_forecast (local_date now) self f) = api_key self /\
  city (process_forecast (local_date now) self f) = city self /\
  country (process_forecast (local_date now) self f) = country self /\
  location_name (process_forecast (local_date now) self f) = location_name self /\
  dict_get d (daily_data (_process_forecasts now self fs))
  = (if String.eqb d (local_date now) then dict_get d (daily_data self)
     else match day_samples d fs with
          | [] => dict_get d (daily_data self)
          | l => Some (add_samples (day_or_fresh d (daily_data self)) l)
          end).
Proof.
  split; [|split; [|split; [|split; [|split]]]].
  - destruct (String.eqb_spec (date_of f) d) as [E|E]; cbn [andb].
    + subst d. destruct (String.eqb_spec (date_of f) (local_date now)) as [Et|Et]; cbn [negb].
      * now rewrite process_forecast_today.
      * now apply dict_get_process_same.
    + now apply dict_get_process_other.
  - unfold process_forecast. now destruct (String.eqb (local_date (dt f)) (local_date now)).
  - unfold process_forecast. now destruct (String.eqb (local_date (dt f)) (local_date now)).
  - unfold process_forecast. now destruct (String.eqb (local_date (dt f)) (local_date now)).
  - unfold process_forecast. now destruct (String.eqb (local_date (dt f)) (local_date now)).
  - apply dict_get_process_forecasts.
Qed.
End EngineClaims.

(* ================================================================== *)
(** * Binary64 satisfies the order laws

    The laws are proved on the specification of the format ([SFadd],
    [SFleb]) and transported to the primitive floats. *)

Section Binary64Order.
Import Binary64.
Local Open Scope Z_scope.

Lemma fexp_binary64 (e : Z) : fexp prec emax e = Z.max (e - 53) (-1074).
Proof. reflexivity. Qed.

(** Number of binary digits. *)
Lemma digits2_pos_bounds (p : positive) :
  2 ^ (Zpos (digits2_pos p) - 1) <= Zpos p < 2 ^ Zpos (digits2_pos p).
Proof.
  induction p as [p IH|p IH|]; cbn [digits2_pos].
  - rewrite Pos2Z.inj_succ.
    replace (Z.succ (Zpos (digits2_pos p)) - 1) with (Zpos (digits2_pos p) - 1 + 1) by lia.
    rewrite Z.pow_succ_r, Z.pow_add_r by lia. lia.
  - rewrite Pos2Z.inj_succ.
    replace (Z.succ (Zpos (digits2_pos p)) - 1) with (Zpos (digits2_pos p) - 1 + 1) by lia.
    rewrite Z.pow_succ_r, Z.pow_add_r by lia. lia.
  - simpl. lia.
Qed.

Lemma Zdigits2_bounds (m : Z) :
  0 < m -> 2 ^ (Zdigits2 m - 1) <= m < 2 ^ Zdigits2 m.
Proof. destruct m as [|p|p]; try lia. intros _. apply digits2_pos_bounds. Qed.

Lemma Zdigits2_pos (m : Z) : 0 < m -> 0 < Zdigits2 m.
Proof. destruct m; simpl; lia. Qed.

(** [m >= a * 2^k] bounds the digits of [m] from below. *)
Lemma Zdigits2_lower (a m k : Z) :
  0 < a -> 0 <= k -> a * 2 ^ k <= m -> Zdigits2 a + k <= Zdigits2 m.
Proof.
  intros Ha Hk Hm.
  assert (Hm0 : 0 < m) by (assert (0 < 2 ^ k) by (apply Z.pow_pos_nonneg; lia); nia).
  pose proof (Zdigits2_bounds a Ha) as [Ha1 _].
  pose proof (Zdigits2_bounds m Hm0) as [_ Hm2].
  pose proof (Zdigits2_pos a Ha). pose proof (Zdigits2_pos m Hm0).
  assert (H2 : 2 ^ (Zdigits2 a - 1 + k) < 2 ^ Zdigits2 m).
  { rewrite Z.pow_add_r by lia.
    assert (0 < 2 ^ k) by (apply Z.pow_pos_nonneg; lia). nia. }
  apply Z.pow_lt_mono_r_iff in H2; lia.
Qed.

(** Right shifts of the rounding records. *)
Lemma shr_1_m (mrs : shr_record) :
  0 <= shr_m mrs -> shr_m (shr_1 mrs) = shr_m mrs / 2.
Proof.
  destruct mrs as [m r s]; cbn [shr_m shr_1].
  destruct m as [|[p|p|]|p]; intros H; cbn [shr_m] in *.
  - reflexivity.
  - rewrite Pos2Z.inj_xI. apply Z.div_unique with (r := 1); lia.
  - rewrite Pos2Z.inj_xO. apply Z.div_unique with (r := 0); lia.
  - reflexivity.
  - lia.
Qed.

Lemma iter_shr_1_m (p : positive) : forall mrs : shr_record,
  0 <= shr_m mrs -> shr_m (iter_pos shr_1 p mrs) = shr_m mrs / 2 ^ Zpos p.
Proof.
  assert (Hdiv : forall a b c, 0 <= a -> 0 < b -> 0 < c -> 0 <= a / b).
  { intros. apply Z.div_pos; lia. }
  induction p as [p IH|p IH|]; intros mrs H; cbn [iter_pos].
  - assert (H1 : 0 <= shr_m (shr_1 mrs)) by (rewrite shr_1_m by lia; apply Z.div_pos; lia).
    assert (H2 : 0 <= shr_m (iter_pos shr_1 p (shr_1 mrs)))
      by (rewrite IH by lia; apply Z.div_pos; [lia | apply Z.pow_pos_nonneg; lia]).
    rewrite IH, IH, shr_1_m by lia.
    rewrite !Z.div_div by (try apply Z.pow_pos_nonneg; lia).
    f_equal. rewrite Pos2Z.inj_xI, <- Z.pow_add_r, <- Z.pow_succ_r by lia. f_equal. lia.
  - assert (H2 : 0 <= shr_m (iter_pos shr_1 p mrs))
      by (rewrite IH by lia; apply Z.div_pos; [lia | apply Z.pow_pos_nonneg; lia]).
    rewrite IH, IH by lia.
    rewrite !Z.div_div by (try apply Z.pow_pos_nonneg; lia).
    f_equal. rewrite Pos2Z.inj_xO, <- Z.pow_add_r by lia. f_equal. lia.
  - now rewrite shr_1_m.
Qed.

(** [shr_fexp] divides the mantissa by the power of two that brings the
    exponent up to [fexp]. *)
Lemma shr_fexp_spec (m e : Z) (l : location) :
  0 <= m ->
  shr_m (fst (shr_fexp prec emax m e l))
  = m / 2 ^ (snd (shr_fexp prec emax m e l) - e) /\
  snd (shr_fexp prec emax m e l) = Z.max e (fexp prec emax (Zdigits2 m + e)).
Proof.
  intros Hm. unfold shr_fexp, shr.
  assert (Hrec : shr_m (shr_record_of_loc m l) = m) by (now destruct l as [|[]]).
  destruct (fexp prec emax (Zdigits2 m + e) - e) as [|n|n] eqn:En; cbn [fst snd].
  - rewrite Z.sub_diag, Hrec, Z.div_1_r. split; [reflexivity | lia].
  - rewrite iter_shr_1_m by lia. rewrite Hrec.
    replace (e + Zpos n - e) with (Zpos n) by lia. split; [reflexivity | lia].
  - rewrite Z.sub_diag, Hrec, Z.div_1_r. split; [reflexivity | lia].
Qed.

Lemma round_nearest_even_bounds (m : Z) (l : location) :
  m <= round_nearest_even m l <= m + 1.
Proof.
  destruct l as [|[]]; cbn [round_nearest_even]; try lia.
  destruct (Z.even m); lia.
Qed.

Lemma div_pow2_lower (m d : Z) :
  53 < d -> 2 ^ (d - 1) <= m -> 2 ^ 52 <= m / 2 ^ (d - 53).
Proof.
  intros Hd Hm. apply Z.div_le_lower_bound; [apply Z.pow_pos_nonneg; lia|].
  rewrite <- Z.pow_add_r by lia. now replace (d - 53 + 52) with (d - 1) by lia.
Qed.

(** Rounding a value that is at least [mx * 2^ex] gives a result that is
    at least [mx * 2^ex], whatever the rounding location says. *)
Lemma binary_round_aux_above (mx : positive) (ex m e : Z) (l : location) :
  fexp prec emax (Zpos (digits2_pos mx) + ex) = ex ->
  e <= ex ->
  Zpos mx * 2 ^ (ex - e) <= m ->
  above mx ex (binary_round_aux prec emax false m e l).
Proof.
  intros Hcan Hle Hm.
  assert (Hpow : 0 < 2 ^ (ex - e)) by (apply Z.pow_pos_nonneg; lia).
  assert (Hm0 : 0 < m) by nia.
  pose proof (Zdigits2_lower (Zpos mx) m (ex - e) eq_refl ltac:(lia) Hm) as Hd.
  cbn [Zdigits2] in Hd.
  pose proof (Zdigits2_bounds m Hm0) as [Hmlo _].
  rewrite fexp_binary64 in Hcan.
  unfold binary_round_aux.
  pose proof (shr_fexp_spec m e l ltac:(lia)) as [Hm1 He1].
  destruct (shr_fexp prec emax m e l) as [mrs1 e1]. cbn [fst snd] in Hm1, He1.
  rewrite fexp_binary64 in He1.
  set (m2 := round_nearest_even (shr_m mrs1) (loc_of_shr_record mrs1)).
  pose proof (round_nearest_even_bounds (shr_m mrs1) (loc_of_shr_record mrs1)) as Hm2.
  fold m2 in Hm2.
  (* after the first shift *)
  assert (He1' : ex <= e1) by lia.
  assert (H1 : 0 < shr_m mrs1 /\ (e1 = ex -> Zpos mx <= shr_m mrs1)).
  { rewrite Hm1. destruct (Z.eq_dec e1 ex) as [E|E].
    - rewrite E. assert (Zpos mx <= m / 2 ^ (ex - e)).
      { apply Z.div_le_lower_bound; [exact Hpow | lia]. }
      split; [lia | intros _; assumption].
    - assert (E1 : e1 - e = Zdigits2 m - 53) by lia.
      rewrite E1. pose proof (div_pow2_lower m (Zdigits2 m) ltac:(lia) Hmlo).
      assert (0 < 2 ^ 52) by reflexivity. split; [lia | lia]. }
  destruct H1 as [Hm1pos Hm1ge].
  assert (Hm2pos : 0 < m2) by lia.
  pose proof (Zdigits2_bounds m2 Hm2pos) as [Hm2lo _].
  pose proof (shr_fexp_spec m2 e1 loc_Exact ltac:(lia)) as [Hm3 He2].
  destruct (shr_fexp prec emax m2 e1 loc_Exact) as [mrs2 e2]. cbn [fst snd] in Hm3, He2.
  rewrite fexp_binary64 in He2.
  assert (H3 : 0 < shr_m mrs2 /\ (e2 = ex -> Zpos mx <= shr_m mrs2)).
  { rewrite Hm3. destruct (Z.eq_dec e2 e1) as [E|E].
    - rewrite E, Z.sub_diag, Z.div_1_r. split; [lia|]. intros E'. lia.
    - assert (E2 : e2 - e1 = Zdigits2 m2 - 53) by lia.
      rewrite E2. pose proof (div_pow2_lower m2 (Zdigits2 m2) ltac:(lia) Hm2lo).
      assert (0 < 2 ^ 52) by reflexivity. split; [lia | lia]. }
  destruct H3 as [Hm3pos Hm3ge].
  destruct (shr_m mrs2) as [|m3|m3]; try lia.
  destruct (e2 <=? emax - prec); [right | now left].
  exists m3, e2. split; [reflexivity|].
  destruct (Z.eq_dec e2 ex) as [E|E]; [right | left; lia].
  split; [lia|]. specialize (Hm3ge E). lia.
Qed.

Lemma iter_xO_spec (d m : positive) : Zpos (Pos.iter xO m d) = Zpos m * 2 ^ Zpos d.
Proof.
  induction d as [|d IH] using Pos.peano_ind.
  - simpl. lia.
  - rewrite Pos.iter_succ, Pos2Z.inj_xO, IH, Pos2Z.inj_succ, Z.pow_succ_r by lia. lia.
Qed.

Lemma shl_align_spec (m : positive) (e e' : Z) :
  Zpos (fst (shl_align m e e')) = Zpos m * 2 ^ (e - snd (shl_align m e e')) /\
  snd (shl_align m e e') = Z.min e e'.
Proof.
  unfold shl_align. destruct (e' - e) as [|d|d] eqn:E; cbn [fst snd].
  - rewrite Z.sub_diag. simpl. lia.
  - rewrite Z.sub_diag. simpl. lia.
  - rewrite iter_xO_spec. replace (e - e') with (Zpos d) by lia. lia.
Qed.

Lemma SFadd_finite_above (mx my : positive) (ex ey : Z) :
  fexp prec emax (Zpos (digits2_pos mx) + ex) = ex ->
  above mx ex (SFadd prec emax (S754_finite false mx ex) (S754_finite false my ey)).
Proof.
  intros Hcan. unfold SFadd. cbn [cond_Zopp].
  pose proof (shl_align_spec mx ex (Z.min ex ey)) as [Hx Hxe].
  pose proof (shl_align_spec my ey (Z.min ex ey)) as [Hy Hye].
  set (mx' := fst (shl_align mx ex (Z.min ex ey))) in *.
  set (my' := fst (shl_align my ey (Z.min ex ey))) in *.
  change (Zpos mx' + Zpos my') with (Zpos (mx' + my')).
  cbn [binary_normalize]. unfold binary_round.
  set (ez := Z.min ex ey) in *.
  pose proof (shl_align_spec (mx' + my') ez
                (fexp prec emax (Zpos (digits2_pos (mx' + my')) + ez))) as [Hz Hze].
  destruct (shl_align (mx' + my') ez
              (fexp prec emax (Zpos (digits2_pos (mx' + my')) + ez))) as [mz e0].
  cbn [fst snd] in Hz, Hze.
  apply binary_round_aux_above; [exact Hcan | lia |].
  rewrite Hz, Pos2Z.inj_add, Hx.
  replace (snd (shl_align mx ex ez)) with ez in * by lia.
  replace (ex - e0) with ((ex - ez) + (ez - e0)) by lia.
  rewrite Z.pow_add_r by lia.
  assert (0 < 2 ^ (ez - e0)) by (apply Z.pow_pos_nonneg; lia).
  assert (0 < 2 ^ (ex - ez)) by (apply Z.pow_pos_nonneg; lia).
  nia.
Qed.

Lemma SFleb_finite_refl (m : positive) (e : Z) :
  SFleb (S754_finite false m e) (S754_finite false m e) = true.
Proof.
  unfold SFleb, SFcompare. rewrite Z.compare_refl.
  change (Pos.compare_cont Eq m m) with (Pos.compare m m).
  now rewrite Pos.compare_refl.
Qed.

Lemma above_leb (mx : positive) (ex : Z) (r : spec_float) :
  above mx ex r ->
  SFleb (S754_finite false mx ex) r = true /\ SFleb (S754_zero false) r = true.
Proof.
  intros [->|(m & e & -> & H)]; [split; reflexivity|].
  split; [|reflexivity].
  unfold SFleb, SFcompare. destruct H as [H|[-> H]].
  - apply Z.compare_lt_iff in H. now rewrite H.
  - rewrite Z.compare_refl.
    change (Pos.compare_cont Eq mx m) with (Pos.compare mx m).
    apply Pos.compare_le_iff in H. now destruct (Pos.compare mx m).
Qed.

(** Adding a non-negative number to a non-negative number of the format
    gives a non-negative number that is not below the first. *)
Lemma SFadd_nonneg (x y : spec_float) :
  SpecFloat.valid_binary prec emax x = true ->
  SFleb (S754_zero false) x = true ->
  SFleb (S754_zero false) y = true ->
  SFleb x (SFadd prec emax x y) = true /\
  SFleb (S754_zero false) (SFadd prec emax x y) = true.
Proof.
  intros Hv Hx Hy.
  destruct x as [sx|[|]| |[|] mx ex]; try discriminate Hx;
    destruct y as [sy|[|]| |[|] my ey]; try discriminate Hy.
  - destruct sx, sy; split; reflexivity.
  - destruct sx; split; reflexivity.
  - destruct sx; split; reflexivity.
  - split; reflexivity.
  - split; reflexivity.
  - split; reflexivity.
  - cbn [SFadd]. split; [apply SFleb_finite_refl | reflexivity].
  - split; reflexivity.
  - apply above_leb, SFadd_finite_above.
    cbn [SpecFloat.valid_binary] in Hv. unfold bounded, canonical_mantissa in Hv.
    apply andb_prop in Hv. destruct Hv as [Hv _]. now apply Z.eqb_eq in Hv.
Qed.

Lemma b64_add_nonneg (x y : float) :
  (0 <=? x)%float = true -> (0 <=? y)%float = true ->
  (x <=? x + y)%float = true /\ (0 <=? x + y)%float = true.
Proof.
  rewrite !leb_spec, add_spec.
  change (Prim2SF 0) with (S754_zero false).
  intros Hx Hy. apply SFadd_nonneg; [apply Prim2SF_valid | exact Hx | exact Hy].
Qed.

Lemma binary64_zero_le_zero : f_leb (F := float) f_zero f_zero = true.
Proof. reflexivity. Qed.

Lemma binary64_add_nonneg (x y : float) :
  f_leb f_zero x = true -> f_leb f_zero y = true -> f_leb f_zero (f_add x y) = true.
Proof. intros Hx Hy. exact (proj2 (b64_add_nonneg x y Hx Hy)). Qed.

Lemma binary64_le_add_nonneg (x y : float) :
  f_leb f_zero x = true -> f_leb f_zero y = true -> f_leb x (f_add x y) = true.
Proof. intros Hx Hy. exact (proj1 (b64_add_nonneg x y Hx Hy)). Qed.

#[export] Instance binary64_order : NonnegOrder float := {|
  zero_le_zero := binary64_zero_le_zero;
  add_nonneg := binary64_add_nonneg;
  le_add_nonneg := binary64_le_add_nonneg
|}.
End Binary64Order.

(* ================================================================== *)
(** * Exact arithmetic satisfies the order laws *)

Section ExactLaws.
Import Exact.

Lemma exact_zero_le_zero : f_leb (F := Q) f_zero f_zero = true.
Proof. reflexivity. Qed.

Lemma exact_add_nonneg (x y : Q) :
  f_leb f_zero x = true -> f_leb f_zero y = true -> f_leb f_zero (f_add x y) = true.
Proof.
  cbn [f_leb f_zero f_add Exact.ops]. rewrite !Qle_bool_iff. intros Hx Hy. lra.
Qed.

Lemma exact_le_add_nonneg (x y : Q) :
  f_leb f_zero x = true -> f_leb f_zero y = true -> f_leb x (f_add x y) = true.
Proof.
  cbn [f_leb f_zero f_add Exact.ops]. rewrite !Qle_bool_iff. intros Hx Hy. lra.
Qed.

#[export] Instance exact_order : NonnegOrder Q := {|
  zero_le_zero := exact_zero_le_zero;
  add_nonneg := exact_add_nonneg;
  le_add_nonneg := exact_le_add_nonneg
|}.
End ExactLaws.

(* ================================================================== *)
(** * The claims on concrete inputs *)

Section Concrete.
Import Binary64 Exact UTC Scenario.

(** C5. When every forecast of the input is of the current day, the report
    is defined: [forecast_details] is empty, both totals are zero (the
    number [0], equal to [0.0]) and [max_humidity_period] is [0]. *)
Theorem report_without_samples {LT : LocalTime}
  (api city country name : string) (now : Z) (fs : list (Forecast float)) :
  Forall (fun f => date_of f = local_date now) fs ->
  forecast_details (run api city country name now fs) = [] /\
  total_rain_period_mm (run api city country name now fs) = NInt 0 /\
  total_snow_period_mm (run api city country name now fs) = NInt 0 /\
  py_eqb (total_rain_period_mm (run api city country name now fs)) (NFloat 0%float) = true /\
  py_eqb (total_snow_period_mm (run api city country name now fs)) (NFloat 0%float) = true /\
  max_humidity_period (run api city country name now fs) = 0.
Proof.
  intros Hall. unfold run.
  rewrite (process_forecasts_all_today _ _ _ Hall).
  repeat split.
Qed.

Lemma report_without_samples_witness :
  Forall (fun f => date_of f = local_date now_ts) [today_noon] /\
  forecast_details (run "key" "Paris" "fr" "Paris" now_ts [today_noon]) = [] /\
  py_eqb (total_rain_period_mm (run "key" "Paris" "fr" "Paris" now_ts [today_noon]))
         (NFloat 0%float) = true /\
  max_humidity_period (run "key" "Paris" "fr" "Paris" now_ts [today_noon]) = 0.
Proof.
  assert (H : Forall (fun f => date_of f = local_date now_ts) [today_noon])
    by (repeat constructor).
  split; [exact H|].
  destruct (report_without_samples "key" "Paris" "fr" "Paris" now_ts [today_noon] H)
    as (Hd & _ & _ & Hr & _ & Hm).
  split; [exact Hd|]. split; [exact Hr | exact Hm].
Defined.

(** C1, counterexample. Two days with 0.04 mm of rain each: both
    [rain_cumul_mm] are [0.0], so their rounded sum is [0.0], while
    [total_rain_period_mm] is [round(0.08, 1) = 0.1]; the same with the
    [sum] of CPython 3.11 and earlier. *)
Lemma total_rain_is_not_the_sum_of_rounded_days :
  map rain_cumul_mm
    (forecast_details (run "key" "Paris" "fr" "Paris" now_ts drizzle_two_days))
  = [0%float; 0%float] /\
  total_rain_period_mm (run "key" "Paris" "fr" "Paris" now_ts drizzle_two_days)
  = NFloat 0.1%float /\
  py_eqb
    (total_rain_period_mm (run "key" "Paris" "fr" "Paris" now_ts drizzle_two_days))
    (py_round1 (py_sum (map rain_cumul_mm
       (forecast_details (run "key" "Paris" "fr" "Paris" now_ts drizzle_two_days)))))
  = false /\
  py_eqb (PF := ops_plain_sum)
    (total_rain_period_mm
       (run (PF := ops_plain_sum) "key" "Paris" "fr" "Paris" now_ts drizzle_two_days))
    (py_round1 (PF := ops_plain_sum) (py_sum (PF := ops_plain_sum) (map rain_cumul_mm
       (forecast_details
          (run (PF := ops_plain_sum) "key" "Paris" "fr" "Paris" now_ts drizzle_two_days)))))
  = false.
Proof. vm_compute. repeat split. Qed.

(** C3, counterexample. Between (20, Clear) and (24, Rain), which form a
    major transition, the quiet sample (22, Clear) is inserted: it is within
    3 of the previous temperature and of the same category, and the count
    goes from 1 to 0. *)
Lemma quiet_insertion_changes_transitions :
  py_last [clear_20] = Some clear_20 /\
  s_weather clear_22 = s_weather clear_20 /\
  f_leb (f_abs (f_sub (s_temp clear_22) (s_temp clear_20))) (f_of_Z 3) = true /\
  transitions (add_samples (WeatherData_init "2025-11-04") ([clear_20] ++ [rain_24])) = 1 /\
  transitions (add_samples (WeatherData_init "2025-11-04")
                 ([clear_20] ++ clear_22 :: [rain_24])) = 0.
Proof. vm_compute. repeat split. Qed.

Lemma quiet_insertion_preserves_transitions_witness :
  py_last [clear_20] = Some clear_20 /\
  s_weather clear_22 = s_weather clear_20 /\
  f_leb (f_abs (f_sub (s_temp clear_22) (s_temp clear_20))) (f_of_Z 3) = true /\
  transitions (add_samples (WeatherData_init "2025-11-04")
                 ([clear_20] ++ clear_22 :: [rain_30]))
  = transitions (add_samples (WeatherData_init "2025-11-04") ([clear_20] ++ [rain_30])).
Proof.
  split; [reflexivity|]. split; [reflexivity|]. split; [reflexivity|].
  apply (quiet_insertion_preserves_transitions
           "2025-11-04" [clear_20] [rain_30] clear_20 clear_22).
  - reflexivity.
  - reflexivity.
  - reflexivity.
  - intros n Hn. injection Hn as <-. reflexivity.
Defined.

Lemma today_forecast_is_skipped_witness :
  date_of today_noon = local_date now_ts /\
  _process_forecasts now_ts fresh_engine (drizzle_two_days ++ today_noon :: [])
  = _process_forecasts now_ts fresh_engine (drizzle_two_days ++ []).
Proof.
  split; [reflexivity|].
  apply (today_forecast_is_skipped now_ts fresh_engine drizzle_two_days [] today_noon).
  reflexivity.
Defined.

Lemma add_sample_monotone_witness :
  Forall nonneg_sample [clear_20; rain_24] /\
  nonneg_sample rain_30 /\
  f_leb
    (rain_mm (add_samples (WeatherData_init "2025-11-04") [clear_20; rain_24]))
    (rain_mm (add_call (add_samples (WeatherData_init "2025-11-04") [clear_20; rain_24])
                  rain_30)) = true /\
  f_leb
    (snow_mm (add_samples (WeatherData_init "2025-11-04") [clear_20; rain_24]))
    (snow_mm (add_call (add_samples (WeatherData_init "2025-11-04") [clear_20; rain_24])
                  rain_30)) = true /\
  (transitions (add_samples (WeatherData_init "2025-11-04") [clear_20; rain_24])
   <= transitions (add_call (add_samples (WeatherData_init "2025-11-04") [clear_20; rain_24])
                       rain_30))%Z.
Proof.
  assert (Hl : Forall nonneg_sample [clear_20; rain_24])
    by (repeat constructor).
  assert (Hs : nonneg_sample rain_30) by (split; reflexivity).
  split; [exact Hl|]. split; [exact Hs|].
  exact (@add_sample_monotone float Binary64.ops binary64_order
           "2025-11-04" [clear_20; rain_24] rain_30 Hl Hs).
Defined.
End Concrete.

(* ================================================================== *)
(** * Properties of [fetch_data] and [main] *)

Section ResponseFacts.
Context {F : Type} {PF : PyFloat F} {LT : LocalTime}.
Implicit Types (self : WeatherForecast F) (rf : RawForecast F)
  (rfs : list (RawForecast F)) (fs : list (Forecast F)).

Lemma raw_process_forecast_no_dt today rf self :
  r_dt rf = None ->
  raw_process_forecast today rf self = (self, Raise (KeyError "dt")).
Proof. unfold raw_process_forecast, bind. now intros ->. Qed.

Lemma raw_process_forecast_today today rf self t :
  r_dt rf = Some t -> local_date t = today ->
  raw_process_forecast today rf self = (self, Return tt).
Proof.
  unfold raw_process_forecast, bind. intros -> <-. cbn.
  now rewrite String.eqb_refl.
Qed.

Lemma raw_process_forecast_decode today rf f self :
  decode rf = Some f -> date_of f <> today ->
  raw_process_forecast today rf self = (process_forecast today self f, Return tt).
Proof.
  unfold decode, date_of.
  destruct rf as [[t|] [[[temp|] [hum|]]|] [[|[[w|]] ws]|] rn sn]; cbn;
    try discriminate.
  intros [= <-] Hd. cbn in Hd. apply String.eqb_neq in Hd.
  unfold raw_process_forecast, process_forecast, bind; cbn. now rewrite Hd.
Qed.

(** A forecast of another day that lacks a member raises after the day has
    been created; the exception is [IndexError] only for an empty
    ['weather'] list. *)
Lemma raw_process_forecast_undecodable today rf self t :
  r_dt rf = Some t -> local_date t <> today -> decode rf = None ->
  exists e,
    raw_process_forecast today rf self = (ensure_day (local_date t) self, Raise e) /\
    (e = IndexError -> r_weather rf = Some []).
Proof.
  intros Ht Hd Hdec. apply String.eqb_neq in Hd.
  unfold decode in Hdec. rewrite Ht in Hdec.
  unfold raw_process_forecast, bind. rewrite Ht. cbn. rewrite Hd. cbn.
  destruct rf as [dt0 [[[temp|] [hum|]]|] [[|[[w|]] ws]|] rn sn]; cbn in *;
    try discriminate;
    eexists; (split; [reflexivity | intros [=]; reflexivity || discriminate]).
Qed.

Lemma raw_process_forecasts_cons now rf rfs self :
  raw_process_forecasts now (rf :: rfs) self
  = match raw_process_forecast (local_date now) rf self with
    | (s', Return _) => raw_process_forecasts now rfs s'
    | (s', Raise e) => (s', Raise e)
    end.
Proof. reflexivity. Qed.

Lemma raw_process_forecasts_ok now rfs : forall fs self,
  decode_list (local_date now) rfs = Some fs ->
  raw_process_forecasts now rfs self = (_process_forecasts now self fs, Return tt).
Proof.
  induction rfs as [|rf rfs IH]; intros fs self Hdec.
  - injection Hdec as <-. reflexivity.
  - rewrite raw_process_forecasts_cons. cbn [decode_list] in Hdec.
    destruct (r_dt rf) as [t|] eqn:Ht; [|discriminate].
    destruct (String.eqb_spec (local_date t) (local_date now)) as [E|E].
    + rewrite (raw_process_forecast_today _ _ _ t Ht E). now apply IH.
    + destruct (decode rf) as [f|] eqn:Hf; [|discriminate].
      destruct (decode_list (local_date now) rfs) as [fs'|] eqn:Hfs; [|discriminate].
      injection Hdec as <-.
      assert (Hdate : date_of f <> local_date now).
      { unfold decode in Hf. rewrite Ht in Hf.
        destruct (r_main rf) as [[[?|] [?|]]|]; try discriminate;
          destruct (r_weather rf) as [[|[[?|]] ?]|]; try discriminate.
        injection Hf as <-. exact E. }
      rewrite (raw_process_forecast_decode _ _ f _ Hf Hdate).
      rewrite process_forecasts_cons. now apply IH.
Qed.

(** The loop up to the first forecast that cannot be processed. *)
Lemma raw_process_forecasts_stops now pre rf post fs self :
  decode_list (local_date now) pre = Some fs ->
  raw_process_forecasts now (pre ++ rf :: post) self
  = match raw_process_forecast (local_date now) rf (_process_forecasts now self fs) with
    | (s', Return _) => raw_process_forecasts now post s'
    | (s', Raise e) => (s', Raise e)
    end.
Proof.
  revert fs self. induction pre as [|p pre IH]; intros fs self Hdec.
  - injection Hdec as <-. reflexivity.
  - change ((p :: pre) ++ rf :: post) with (p :: (pre ++ rf :: post)).
    rewrite raw_process_forecasts_cons. cbn [decode_list] in Hdec.
    destruct (r_dt p) as [t|] eqn:Ht; [|discriminate].
    destruct (String.eqb_spec (local_date t) (local_date now)) as [E|E].
    + rewrite (raw_process_forecast_today _ _ _ t Ht E). now apply IH.
    + destruct (decode p) as [f|] eqn:Hf; [|discriminate].
      destruct (decode_list (local_date now) pre) as [fs'|] eqn:Hfs; [|discriminate].
      injection Hdec as <-.
      assert (Hdate : date_of f <> local_date now).
      { unfold decode in Hf. rewrite Ht in Hf.
        destruct (r_main p) as [[[?|] [?|]]|]; try discriminate;
          destruct (r_weather p) as [[|[[?|]] ?]|]; try discriminate.
        injection Hf as <-. exact E. }
      rewrite (raw_process_forecast_decode _ _ f _ Hf Hdate).
      rewrite process_forecasts_cons. now apply IH.
Qed.

Lemma raw_process_forecasts_fail now rfs : forall self,
  decode_list (local_date now) rfs = None ->
  exists s' e,
    raw_process_forecasts now rfs self = (s', Raise e) /\
    (e = IndexError -> Exists (fun rf => r_weather rf = Some []) rfs).
Proof.
  induction rfs as [|rf rfs IH]; intros self Hdec; [discriminate|].
  rewrite raw_process_forecasts_cons. cbn [decode_list] in Hdec.
  destruct (r_dt rf) as [t|] eqn:Ht.
  - destruct (String.eqb_spec (local_date t) (local_date now)) as [E|E].
    + rewrite (raw_process_forecast_today _ _ _ t Ht E).
      destruct (IH self Hdec) as (s' & e & Hrun & He).
      exists s', e. split; [exact Hrun | intros H; right; auto].
    + destruct (decode rf) as [f|] eqn:Hf.
      * assert (Hdate : date_of f <> local_date now).
        { unfold decode in Hf. rewrite Ht in Hf.
          destruct (r_main rf) as [[[?|] [?|]]|]; try discriminate;
            destruct (r_weather rf) as [[|[[?|]] ?]|]; try discriminate.
          injection Hf as <-. exact E. }
        rewrite (raw_process_forecast_decode _ _ f _ Hf Hdate).
        destruct (decode_list (local_date now) rfs) eqn:Hfs; [discriminate|].
        destruct (IH (process_forecast (local_date now) self f) eq_refl)
          as (s' & e & Hrun & He).
        exists s', e. split; [exact Hrun | intros H; right; auto].
      * destruct (raw_process_forecast_undecodable _ rf self t Ht E Hf)
          as (e & Hrun & He).
        rewrite Hrun. exists (ensure_day (local_date t) self), e.
        split; [reflexivity | intros H; left; auto].
  - rewrite (raw_process_forecast_no_dt _ _ _ Ht).
    exists self, (KeyError "dt"). split; [reflexivity | discriminate].
Qed.
End ResponseFacts.

Section ResponseProperties.
Context {F : Type} {PF : PyFloat F} {LT : LocalTime}.
Implicit Types (self : WeatherForecast F) (rf : RawForecast F)
  (rfs : list (RawForecast F)) (fs : list (Forecast F)).

(** [fetch_data] once ['city'], ['name'] and ['list'] are found. *)
Lemma fetch_data_response now data c name rfs self :
  d_city data = Some c -> c_name c = Some name -> d_list data = Some rfs ->
  fetch_data now (Response data) self
  = match raw_process_forecasts now rfs (set_location_name name self) with
    | (s', Return _) => (s', Return true)
    | (s', Raise (KeyError _)) => (s', Return false)
    | (s', Raise IndexError) => (s', Raise IndexError)
    end.
Proof.
  intros Hc Hn Hl. unfold fetch_data, except_KeyError, bind.
  rewrite Hc. cbn. rewrite Hn. cbn. rewrite Hl. cbn.
  destruct (raw_process_forecasts now rfs (set_location_name name self)) as [s' [[]|[k|]]];
    reflexivity.
Qed.

(** [fetch_data] when one of them is missing. *)
Lemma fetch_data_incomplete now data self :
  d_city data = None \/
  (exists c, d_city data = Some c /\ (c_name c = None \/ d_list data = None)) ->
  exists s', fetch_data now (Response data) self = (s', Return false).
Proof.
  unfold fetch_data, except_KeyError, bind.
  intros [Hc|(c & Hc & [Hn|Hl])]; rewrite Hc; cbn.
  - eexists; reflexivity.
  - rewrite Hn. cbn. eexists; reflexivity.
  - destruct (c_name c); cbn; [rewrite Hl; cbn|]; eexists; reflexivity.
Qed.

(** X1. When [main] gets as far as [generate_report], the request had
    succeeded, the response had ['city']['name'] and ['list'], every forecast
    had its ['dt'], every forecast of another day than today had the members
    the loop reads, and the report is the one of [run] on those forecasts
    of other days. *)
Theorem main_completes_only_on_complete_response
  (city country key : string) (now : Z) (http : http_result F) (r : Report F) :
  main city country key now http = Completed r ->
  exists data c name rfs fs,
    http = Response data /\
    d_city data = Some c /\ c_name c = Some name /\ d_list data = Some rfs /\
    decode_list (local_date now) rfs = Some fs /\
    r = run key city country name now fs.
Proof.
  unfold main.
  destruct http as [|data]; [discriminate|].
  destruct (d_city data) as [c|] eqn:Hc.
  2: { destruct (fetch_data_incomplete now data (WeatherForecast_init key city country))
         as [s' Hs]; [now left|]. rewrite Hs. discriminate. }
  destruct (c_name c) as [name|] eqn:Hn.
  2: { destruct (fetch_data_incomplete now data (WeatherForecast_init key city country))
         as [s' Hs]; [right; exists c; auto|]. rewrite Hs. discriminate. }
  destruct (d_list data) as [rfs|] eqn:Hl.
  2: { destruct (fetch_data_incomplete now data (WeatherForecast_init key city country))
         as [s' Hs]; [right; exists c; auto|]. rewrite Hs. discriminate. }
  rewrite (fetch_data_response now data c name rfs _ Hc Hn Hl).
  destruct (decode_list (local_date now) rfs) as [fs|] eqn:Hdec.
  - rewrite (raw_process_forecasts_ok now rfs fs _ Hdec).
    intros [= <-]. exists data, c, name, rfs, fs. repeat split; assumption.
  - destruct (raw_process_forecasts_fail now rfs
                (set_location_name name (WeatherForecast_init key city country)) Hdec)
      as (s' & e & Hrun & _).
    rewrite Hrun. destruct e; discriminate.
Qed.

(** X2. When the request fails, or the response lacks ['city'], the
    ['name'] of the city or ['list'], [fetch_data] returns [False] before
    any forecast is looked at: the days and the maximum humidity of the
    engine are untouched and [main] ends with [exit(1)]. *)
Theorem fetch_data_without_forecasts_returns_false
  (city country key : string) (now : Z) (http : http_result F)
  (self : WeatherForecast F) :
  http = RequestException \/
  (exists data, http = Response data /\
     (d_city data = None \/
      exists c, d_city data = Some c /\ (c_name c = None \/ d_list data = None))) ->
  snd (fetch_data now http self) = Return false /\
  daily_data (fst (fetch_data now http self)) = daily_data self /\
  max_humidity (fst (fetch_data now http self)) = max_humidity self /\
  main city country key now http = Exit1.
Proof.
  unfold main, fetch_data, except_KeyError, bind.
  intros [-> | (data & -> & [Hc | (c & Hc & [Hn | Hl])])].
  - repeat split.
  - rewrite Hc. repeat split.
  - rewrite Hc. cbn. rewrite Hn. repeat split.
  - rewrite Hc. cbn. destruct (c_name c) as [name|]; cbn.
    + rewrite Hl. repeat split.
    + repeat split.
Qed.

(** X3. When the first forecast that cannot be processed lacks a key (its
    ['dt'], or, being of another day than today, a member the loop reads
    while its ['weather'] list is not empty), the [KeyError] is caught by
    [fetch_data]: [main] ends with [exit(1)], without a traceback. *)
Theorem missing_key_is_caught
  (city country key name : string) (now : Z) (data : RawData F) (c : RawCity)
  (pre post : list (RawForecast F)) (rf : RawForecast F) (fs : list (Forecast F)) :
  d_city data = Some c -> c_name c = Some name ->
  d_list data = Some (pre ++ rf :: post) ->
  decode_list (local_date now) pre = Some fs ->
  r_dt rf = None \/
  (exists t, r_dt rf = Some t /\ local_date t <> local_date now /\
             decode rf = None /\ r_weather rf <> Some []) ->
  main city country key now (Response data) = Exit1.
Proof.
  intros Hc Hn Hl Hpre Hrf. unfold main.
  rewrite (fetch_data_response now data c name _ _ Hc Hn Hl).
  rewrite (raw_process_forecasts_stops now pre rf post fs _ Hpre).
  destruct Hrf as [Hdt | (t & Ht & Hd & Hdec & Hw)].
  - now rewrite (raw_process_forecast_no_dt _ _ _ Hdt).
  - destruct (raw_process_forecast_undecodable (local_date now) rf
                (_process_forecasts now
                   (set_location_name name (WeatherForecast_init key city country)) fs)
                t Ht Hd Hdec) as (e & Hrun & He).
    rewrite Hrun. destruct e as [k|]; [reflexivity|].
    now destruct (Hw (He eq_refl)).
Qed.

(** X4. When the first forecast that cannot be processed is one of another
    day with ['main']['temp'] and an empty ['weather'] list, [IndexError]
    is not caught: [main] ends with a traceback instead of [exit(1)]. *)
Theorem empty_weather_list_is_not_caught
  (city country key name : string) (now : Z) (data : RawData F) (c : RawCity)
  (pre post : list (RawForecast F)) (rf : RawForecast F) (fs : list (Forecast F))
  (t : Z) (m : RawMain F) (temp : F) :
  d_city data = Some c -> c_name c = Some name ->
  d_list data = Some (pre ++ rf :: post) ->
  decode_list (local_date now) pre = Some fs ->
  r_dt rf = Some t -> local_date t <> local_date now ->
  r_main rf = Some m -> m_temp m = Some temp ->
  r_weather rf = Some [] ->
  main city country key now (Response data) = Traceback IndexError.
Proof.
  intros Hc Hn Hl Hpre Ht Hd Hm Htemp Hw. unfold main.
  rewrite (fetch_data_response now data c name _ _ Hc Hn Hl).
  rewrite (raw_process_forecasts_stops now pre rf post fs _ Hpre).
  apply String.eqb_neq in Hd.
  unfold raw_process_forecast, bind. rewrite Ht. cbn. rewrite Hd. cbn.
  rewrite Hm. cbn. rewrite Htemp. cbn. rewrite Hw. reflexivity.
Qed.

(** X5. [fetch_data] is not atomic: when a forecast of another day than
    today lacks a member, the call does not return [True], but the engine
    keeps the location name, everything aggregated from the forecasts
    before it, and a day for the date of the faulty forecast. *)
Theorem fetch_data_failure_keeps_prefix
  (now : Z) (data : RawData F) (c : RawCity) (name : string)
  (pre post : list (RawForecast F)) (rf : RawForecast F) (fs : list (Forecast F))
  (t : Z) (self : WeatherForecast F) :
  d_city data = Some c -> c_name c = Some name ->
  d_list data = Some (pre ++ rf :: post) ->
  decode_list (local_date now) pre = Some fs ->
  r_dt rf = Some t -> local_date t <> local_date now ->
  decode rf = None ->
  fst (fetch_data now (Response data) self)
  = ensure_day (local_date t)
      (_process_forecasts now (set_location_name name self) fs) /\
  snd (fetch_data now (Response data) self) <> Return true.
Proof.
  intros Hc Hn Hl Hpre Ht Hd Hdec.
  rewrite (fetch_data_response now data c name _ _ Hc Hn Hl).
  rewrite (raw_process_forecasts_stops now pre rf post fs _ Hpre).
  destruct (raw_process_forecast_undecodable (local_date now) rf
              (_process_forecasts now (set_location_name name self) fs) t Ht Hd Hdec)
    as (e & Hrun & _).
  rewrite Hrun. destruct e; cbn; split; (reflexivity || discriminate).
Qed.
End ResponseProperties.

(* ================================================================== *)
(** * Further properties of the report *)

Section ReportProperties.
Context {F : Type} {PF : PyFloat F} {LT : LocalTime}.
Implicit Types (self : WeatherForecast F) (f : Forecast F) (fs : list (Forecast F)).

Lemma max_humidity_process_forecast today self f :
  max_humidity (process_forecast today self f)
  = if String.eqb (date_of f) today then max_humidity self
    else Z.max (max_humidity self) (main_humidity f).
Proof.
  unfold process_forecast, date_of.
  now destruct (String.eqb (local_date (dt f)) today).
Qed.

(** The running maximum after a list of forecasts. *)
Lemma max_humidity_process_forecasts now fs : forall self,
  (max_humidity self <= max_humidity (_process_forecasts now self fs))%Z /\
  (forall f, In f fs -> date_of f <> local_date now ->
             (main_humidity f <= max_humidity (_process_forecasts now self fs))%Z) /\
  (max_humidity (_process_forecasts now self fs) = max_humidity self \/
   exists f, In f fs /\ date_of f <> local_date now /\
             main_humidity f = max_humidity (_process_forecasts now self fs)).
Proof.
  induction fs as [|f fs IH]; intros self.
  - cbn. repeat split; [lia | tauto | now left].
  - rewrite process_forecasts_cons.
    destruct (IH (process_forecast (local_date now) self f)) as (Hmono & Hall & Hex).
    rewrite max_humidity_process_forecast in Hmono, Hex.
    destruct (String.eqb_spec (date_of f) (local_date now)) as [E|E].
    + repeat split.
      * exact Hmono.
      * intros g [<-|Hg] Hd; [contradiction | now apply Hall].
      * destruct Hex as [Hex|(g & Hg & Hd & Hh)]; [now left|].
        right. exists g. repeat split; [now right | exact Hd | exact Hh].
    + repeat split.
      * lia.
      * intros g [<-|Hg] Hd; [lia | now apply Hall].
      * destruct Hex as [Hex|(g & Hg & Hd & Hh)].
        -- destruct (Z.max_spec (max_humidity self) (main_humidity f)) as [[_ Hm]|[_ Hm]].
           ++ right. exists f. repeat split; [now left | exact E | congruence].
           ++ left. congruence.
        -- right. exists g. repeat split; [now right | exact Hd | exact Hh].
Qed.

Lemma max_humidity_period_run api city country name now fs :
  max_humidity_period (run api city country name now fs)
  = max_humidity
      (_process_forecasts now
         {| api_key := api; city := city; country := country;
            daily_data := []; max_humidity := 0; location_name := name |} fs).
Proof. reflexivity. Qed.

(** X6. [max_humidity_period] is the largest of [0] and the humidities of
    the forecasts of other days than today: it is never negative, it bounds
    each of these humidities, and it is [0] or one of them. *)
Theorem max_humidity_period_is_the_maximum
  (api city country name : string) (now : Z) (fs : list (Forecast F)) :
  (0 <= max_humidity_period (run api city country name now fs))%Z /\
  (forall f, In f fs -> date_of f <> local_date now ->
     (main_humidity f <= max_humidity_period (run api city country name now fs))%Z) /\
  (max_humidity_period (run api city country name now fs) = 0 \/
   exists f, In f fs /\ date_of f <> local_date now /\
     main_humidity f = max_humidity_period (run api city country name now fs)).
Proof.
  rewrite max_humidity_period_run.
  apply (max_humidity_process_forecasts now fs
           {| api_key := api; city := city; country := country;
              daily_data := []; max_humidity := 0; location_name := name |}).
Qed.

(** X7. [max_humidity_period] does not depend on the order of the
    forecasts. *)
Theorem max_humidity_period_ignores_order
  (api city country name : string) (now : Z) (fs fs' : list (Forecast F)) :
  Permutation fs fs' ->
  max_humidity_period (run api city country name now fs)
  = max_humidity_period (run api city country name now fs').
Proof.
  intros Hperm. rewrite !max_humidity_period_run.
  set (s0 := {| api_key := api; city := city; country := country;
                daily_data := []; max_humidity := 0; location_name := name |}).
  destruct (max_humidity_process_forecasts now fs s0) as (H0 & Hall & Hex).
  destruct (max_humidity_process_forecasts now fs' s0) as (H0' & Hall' & Hex').
  apply Z.le_antisymm.
  - destruct Hex as [->|(f & Hf & Hd & <-)]; [exact H0'|].
    apply Hall'; [now apply (Permutation_in _ Hperm) | exact Hd].
  - destruct Hex' as [->|(f & Hf & Hd & <-)]; [exact H0|].
    apply Hall; [now apply (Permutation_in _ (Permutation_sym Hperm)) | exact Hd].
Qed.

(** X8. The dates of [forecast_details] are exactly the local dates, other
    than today's, of the forecasts of the input. *)
Theorem forecast_details_dates
  (api city country name : string) (now : Z) (fs : list (Forecast F)) (d : string) :
  In d (map date_local (forecast_details (run api city country name now fs))) <->
  d <> local_date now /\ exists f, In f fs /\ date_of f = d.
Proof.
  rewrite forecast_details_run, map_map.
  rewrite (map_ext _ (fun d => d))
    by (intros x; unfold to_dict; cbn [date_local]; apply date_day_data).
  rewrite map_id.
  assert (Hperm := sorted_by_perm (fun d : string => d) (day_dates (local_date now) fs)).
  split.
  - intros Hin. apply (Permutation_in _ Hperm) in Hin.
    apply in_day_dates in Hin. destruct Hin as [Hd Hin].
    split; [exact Hd|]. apply in_map_iff in Hin. destruct Hin as (f & Hf & Hin).
    now exists f.
  - intros (Hd & f & Hf & <-).
    apply (Permutation_in _ (Permutation_sym Hperm)), in_day_dates.
    split; [exact Hd | now apply in_map].
Qed.

(** X9. The [major_transitions_count] of a day of the report is the number
    of adjacent pairs, among the samples of that day taken in input order,
    whose categories differ and whose temperatures differ by more than 3;
    forecasts of other days in between play no part. *)
Theorem major_transitions_count_of_each_day
  (api city country name : string) (now : Z) (fs : list (Forecast F)) :
  map (fun x => (date_local x, major_transitions_count x))
      (forecast_details (run api city country name now fs))
  = map (fun d => (d, count_transitions None (day_samples d fs)))
      (sorted_by (fun d => d) (day_dates (local_date now) fs)).
Proof.
  rewrite forecast_details_run, map_map.
  apply map_ext. intros d.
  unfold to_dict; cbn [date_local major_transitions_count].
  rewrite date_day_data. unfold day_data. now rewrite transitions_add_samples.
Qed.
End ReportProperties.

(* ================================================================== *)
(** * Further properties of [WeatherData] and of the dictionary *)

Section DayProperties.
Context {F : Type} {PF : PyFloat F}.

Lemma transition_step_bounds (p : option (Sample F)) (s : Sample F) :
  (0 <= transition_step p s <= 1)%Z.
Proof.
  unfold transition_step. destruct p as [p|]; [|lia].
  destruct (negb (String.eqb (s_weather s) (s_weather p))
            && f_ltb (f_of_Z 3) (f_abs (f_sub (s_temp s) (s_temp p)))); lia.
Qed.

Lemma count_transitions_bounds (l : list (Sample F)) : forall p,
  (0 <= count_transitions p l <= Z.of_nat (List.length l))%Z.
Proof.
  induction l as [|s l IH]; intros p; cbn [count_transitions List.length]; [lia|].
  pose proof (transition_step_bounds p s). pose proof (IH (Some s)). lia.
Qed.

(** X10. After [n] calls of [add_sample] on a fresh [WeatherData],
    [transitions] lies between [0] and [n - 1] (it is [0] for [n <= 1]),
    and [samples] holds the [n] pairs in call order. *)
Theorem transitions_bounded_by_samples (d0 : string) (l : list (Sample F)) :
  (0 <= transitions (add_samples (WeatherData_init d0) l)
     <= Z.max 0 (Z.of_nat (List.length l) - 1))%Z /\
  samples (add_samples (WeatherData_init d0) l) = map sample_pair l.
Proof.
  split; [|now rewrite samples_add_samples].
  rewrite transitions_add_samples.
  destruct l as [|s l]; cbn [count_transitions List.length transition_step]; [lia|].
  pose proof (count_transitions_bounds l (Some s)). lia.
Qed.

Lemma count_transitions_same_category (w : string) (l : list (Sample F)) : forall p,
  (forall q, p = Some q -> s_weather q = w) ->
  Forall (fun s => s_weather s = w) l ->
  count_transitions p l = 0%Z.
Proof.
  induction l as [|s l IH]; intros p Hp Hl; [reflexivity|].
  inversion Hl as [|? ? Hs Hl']; subst. cbn [count_transitions].
  rewrite (IH (Some s)); [|intros q [= <-]; reflexivity | exact Hl'].
  unfold transition_step. destruct p as [q|]; [|reflexivity].
  now rewrite (Hp q eq_refl), String.eqb_refl.
Qed.

(** X11. A day whose samples all have the same category counts no
    transition, whatever the temperatures. *)
Theorem same_category_day_has_no_transition
  (d0 w : string) (l : list (Sample F)) :
  Forall (fun s => s_weather s = w) l ->
  transitions (add_samples (WeatherData_init d0) l) = 0%Z.
Proof.
  intros Hl. rewrite transitions_add_samples.
  apply (count_transitions_same_category w); [discriminate | exact Hl].
Qed.

Lemma dict_update_keys {V : Type} (k : string) (g : V -> V) (m : dict V) :
  map fst (dict_update k g m) = map fst m.
Proof.
  induction m as [|[k' v] m IH]; cbn; [reflexivity|].
  destruct (String.eqb k k'); cbn; [reflexivity | now rewrite IH].
Qed.

Lemma dict_mem_In {V : Type} (k : string) (m : dict V) :
  dict_mem k m = true <-> In k (map fst m).
Proof.
  unfold dict_mem. induction m as [|[k' v] m IH]; cbn; [split; [discriminate | tauto]|].
  destruct (String.eqb_spec k k') as [E|E].
  - split; [auto | reflexivity].
  - rewrite IH. split; [auto | intros [H|H]; [congruence | exact H]].
Qed.

Lemma dict_update_Forall {V : Type} (P : string * V -> Prop) (k : string)
      (g : V -> V) (m : dict V) :
  (forall k' v, P (k', v) -> P (k', g v)) ->
  Forall P m -> Forall P (dict_update k g m).
Proof.
  intros Hg. induction 1 as [|[k' v] m Hkv Hm IH]; cbn; [constructor|].
  destruct (String.eqb k k'); constructor; auto.
Qed.
End DayProperties.

Section DictionaryProperties.
Context {F : Type} {PF : PyFloat F} {LT : LocalTime}.
Implicit Types (self : WeatherForecast F) (f : Forecast F) (fs : list (Forecast F)).

Lemma well_keyed_process_forecast today self f :
  well_keyed (daily_data self) ->
  well_keyed (daily_data (process_forecast today self f)).
Proof.
  intros [Hnd Hdate].
  destruct (String.eqb_spec (date_of f) today) as [E|E].
  - rewrite process_forecast_today by exact E. now split.
  - rewrite (daily_data_process_forecast _ _ _ E).
    assert (Hday : well_keyed
              (if negb (dict_mem (date_of f) (daily_data self))
               then dict_set (date_of f) (WeatherData_init (date_of f)) (daily_data self)
               else daily_data self)).
    { destruct (dict_mem (date_of f) (daily_data self)) eqn:Hmem; cbn [negb];
        [now split|].
      rewrite dict_set_fresh by exact Hmem. split.
      - rewrite map_app. cbn [map fst].
        apply NoDup_app; [exact Hnd | repeat constructor; intros [] |].
        intros x Hx [<-|[]]. apply dict_mem_In in Hx. congruence.
      - apply Forall_app. split; [exact Hdate | repeat constructor]. }
    destruct Hday as [Hnd' Hdate']. split.
    + now rewrite dict_update_keys.
    + apply dict_update_Forall; [|exact Hdate'].
      intros k' v Hv. cbn in *. exact Hv.
Qed.

(** X12. [_process_forecasts] keeps the dictionary well keyed: whatever the
    input and however often it is called, every date is bound once and
    every day is stored under its own date. *)
Theorem process_forecasts_keeps_well_keyed
  (now : Z) (self : WeatherForecast F) (fs : list (Forecast F)) :
  well_keyed (daily_data self) ->
  well_keyed (daily_data (_process_forecasts now self fs)).
Proof.
  revert self. induction fs as [|f fs IH]; intros self H; [exact H|].
  rewrite process_forecasts_cons. apply IH, well_keyed_process_forecast, H.
Qed.

(** X13. For any engine whose dictionary is well keyed, also one that has
    processed several responses, [generate_report] lists the days in
    strictly increasing order of their dates, one entry per day of the
    dictionary. *)
Theorem generate_report_sorts_well_keyed_days (self : WeatherForecast F) :
  well_keyed (daily_data self) ->
  StronglySorted (fun a b => String.ltb (date_local a) (date_local b) = true)
    (forecast_details (generate_report self)) /\
  Permutation (map date_local (forecast_details (generate_report self)))
              (map fst (daily_data self)).
Proof.
  intros [Hnd Hdate]. unfold generate_report; cbn [forecast_details].
  assert (Hkeys : map date (dict_values (daily_data self)) = map fst (daily_data self)).
  { unfold dict_values. rewrite map_map. apply map_ext_Forall.
    revert Hdate. apply Forall_impl. intros [k v] H. exact H. }
  split.
  - apply StronglySorted_map.
    apply (sorted_by_strongly_sorted date). now rewrite Hkeys.
  - rewrite map_map. cbn [to_dict date_local].
    rewrite <- Hkeys. apply Permutation_map, sorted_by_perm.
Qed.

(** X14. The number of days of the report is the number of distinct local
    dates, other than today's, among the forecasts of the input. *)
Theorem number_of_days_of_the_report
  (api city country name : string) (now : Z) (fs : list (Forecast F)) :
  List.length (forecast_details (run api city country name now fs))
  = List.length (nodup string_dec
      (filter (fun d => negb (String.eqb d (local_date now))) (map date_of fs))).
Proof.
  rewrite forecast_details_run, length_map.
  rewrite (Permutation_length (sorted_by_perm (fun d : string => d) _)).
  apply Permutation_length, NoDup_Permutation.
  - apply NoDup_day_dates.
  - apply NoDup_nodup.
  - intros d. rewrite nodup_In, filter_In, in_day_dates.
    split.
    + intros [Hd Hin]. split; [exact Hin|].
      apply String.eqb_neq in Hd. now rewrite Hd.
    + intros [Hin Hd]. split; [|exact Hin].
      destruct (String.eqb_spec d (local_date now)); [discriminate | assumption].
Qed.
End DictionaryProperties.

(* ================================================================== *)
(** * Forecasts without precipitation, in binary64 *)

Section DryForecasts.
Import Binary64.
Local Open Scope Z_scope.

Lemma SFeqb_refl (x : spec_float) : x <> S754_nan -> SFeqb x x = true.
Proof.
  destruct x as [[|]|[|]| |[|] m e]; intros H; try reflexivity; try congruence.
  - unfold SFeqb, SFcompare. rewrite Z.compare_refl.
    change (Pos.compare_cont Eq m m) with (Pos.compare m m).
    now rewrite Pos.compare_refl.
  - unfold SFeqb, SFcompare. rewrite Z.compare_refl.
    change (Pos.compare_cont Eq m m) with (Pos.compare m m).
    now rewrite Pos.compare_refl.
Qed.

(** [x + 0.0 == x] for every float but NaN. *)
Lemma b64_add_zero (x : float) :
  (x =? x)%float = true -> (x + 0 =? x)%float = true.
Proof.
  rewrite !eqb_spec, add_spec.
  change (Prim2SF 0) with (S754_zero false).
  destruct (Prim2SF x) as [[|]|[|]| |s m e]; intros H; try reflexivity.
  - discriminate.
  - exact H.
Qed.

(** X15. A forecast without ['rain'] or without its ['3h'] amount (and
    likewise for snow) leaves the totals of its day numerically unchanged,
    provided they are not NaN. *)
Theorem absent_precipitation_adds_nothing
  (self : WeatherData float) (temp : float) (weather : string)
  (p q : option (option float)) :
  p = None \/ p = Some None ->
  q = None \/ q = Some None ->
  f_eqb (rain_mm self) (rain_mm self) = true ->
  f_eqb (snow_mm self) (snow_mm self) = true ->
  f_eqb (rain_mm (add_sample self temp weather (get_3h p) (get_3h q))) (rain_mm self)
  = true /\
  f_eqb (snow_mm (add_sample self temp weather (get_3h p) (get_3h q))) (snow_mm self)
  = true.
Proof.
  intros Hp Hq Hr Hs.
  assert (Ep : get_3h p = 0%float) by (destruct Hp as [->| ->]; reflexivity).
  assert (Eq : get_3h q = 0%float) by (destruct Hq as [->| ->]; reflexivity).
  rewrite Ep, Eq. unfold add_sample; cbn [rain_mm snow_mm].
  split; apply b64_add_zero; assumption.
Qed.

Lemma fold_add_zeros (l : list float) :
  Forall (fun x => x = 0%float) l -> fold_left PrimFloat.add l 0%float = 0%float.
Proof. induction 1 as [|x l -> _ IH]; [reflexivity | exact IH]. Qed.

Lemma sum_loop_compensated_zeros (l : list float) :
  Forall (fun x => x = 0%float) l -> sum_loop_compensated 0 l = 0%float.
Proof.
  intros H. unfold sum_loop_compensated.
  assert (E : fold_left compensated_step l (0%float, 0%float) = (0%float, 0%float)).
  { induction H as [|x l -> _ IH]; [reflexivity | exact IH]. }
  now rewrite E.
Qed.

Lemma py_sum_zeros (l : list float) :
  Forall (fun x => x = 0%float) l ->
  py_eqb (py_round1 (py_sum l)) (NFloat 0%float) = true.
Proof.
  intros H. destruct H as [|x l -> Hl]; [reflexivity|].
  cbn [py_sum py_round1 py_eqb py_float f_sum_loop f_add f_of_Z f_round1 f_eqb ops].
  change (of_Z 0 + 0)%float with 0%float.
  now rewrite (sum_loop_compensated_zeros l Hl).
Qed.

Lemma dry_day_total {LT : LocalTime} (d : string) (fs : list (Forecast float)) :
  Forall (fun f => rain f = None \/ rain f = Some None) fs ->
  rain_mm (day_data d fs) = 0%float.
Proof.
  intros H. unfold day_data. rewrite rain_add_samples. cbn [WeatherData_init rain_mm f_zero ops].
  apply fold_add_zeros. unfold day_samples. rewrite map_map.
  apply Forall_map, Forall_forall. intros f Hf. apply filter_In in Hf.
  destruct Hf as [Hf _]. rewrite Forall_forall in H.
  cbn [sample_of s_rain]. destruct (H f Hf) as [-> | ->]; reflexivity.
Qed.

(** X16. When no forecast of the input carries a rain amount, every
    [rain_cumul_mm] of the report is [0.0] and [total_rain_period_mm]
    equals [0.0]. *)
Theorem report_of_a_dry_period {LT : LocalTime}
  (api city country name : string) (now : Z) (fs : list (Forecast float)) :
  Forall (fun f => rain f = None \/ rain f = Some None) fs ->
  Forall (fun x => rain_cumul_mm x = 0%float)
    (forecast_details (run api city country name now fs)) /\
  py_eqb (total_rain_period_mm (run api city country name now fs)) (NFloat 0%float)
  = true.
Proof.
  intros H. split.
  - rewrite forecast_details_run. apply Forall_map, Forall_forall. intros d _.
    unfold to_dict; cbn [rain_cumul_mm]. now rewrite (dry_day_total d fs H).
  - unfold run, generate_report; cbn [total_rain_period_mm].
    unfold WeatherForecast_init; cbn [daily_data max_humidity].
    rewrite daily_data_run_state, values_days_of, map_map.
    apply py_sum_zeros, Forall_map, Forall_forall. intros d _.
    now apply dry_day_total.
Qed.
End DryForecasts.

(* ================================================================== *)
(** * The further properties on concrete inputs *)

Section ConcreteResponses.
Import Binary64 UTC Scenario RawScenario.

Lemma main_completes_only_on_complete_response_witness :
  main "Paris" "fr" "key" now_ts
    (Response (response_of "Paris" (map encode drizzle_two_days)))
  = Completed (run "key" "Paris" "fr" "Paris" now_ts drizzle_two_days) /\
  exists data c name rfs fs,
    Response (response_of "Paris" (map encode drizzle_two_days)) = Response data /\
    d_city data = Some c /\ c_name c = Some name /\ d_list data = Some rfs /\
    decode_list (local_date now_ts) rfs = Some fs /\
    run "key" "Paris" "fr" "Paris" now_ts drizzle_two_days
    = run "key" "Paris" "fr" name now_ts fs.
Proof.
  assert (H : main "Paris" "fr" "key" now_ts
                (Response (response_of "Paris" (map encode drizzle_two_days)))
              = Completed (run "key" "Paris" "fr" "Paris" now_ts drizzle_two_days))
    by reflexivity.
  split; [exact H|].
  exact (main_completes_only_on_complete_response "Paris" "fr" "key" now_ts _ _ H).
Defined.

Lemma fetch_data_without_forecasts_returns_false_witness :
  d_list (F := float) {| d_city := Some {| c_name := Some "Paris" |}; d_list := None |}
  = None /\
  daily_data
    (fst (fetch_data now_ts
            (Response {| d_city := Some {| c_name := Some "Paris" |}; d_list := None |})
            engine_with_two_days))
  = daily_data engine_with_two_days /\
  main "Paris" "fr" "key" now_ts
    (Response (F := float) {| d_city := Some {| c_name := Some "Paris" |}; d_list := None |})
  = Exit1.
Proof.
  split; [reflexivity|].
  destruct (fetch_data_without_forecasts_returns_false "Paris" "fr" "key" now_ts
              (Response {| d_city := Some {| c_name := Some "Paris" |}; d_list := None |})
              engine_with_two_days) as (_ & Hd & _ & Hm).
  - right. eexists. split; [reflexivity|]. right. eexists. split; [reflexivity|].
    now right.
  - split; [exact Hd | exact Hm].
Defined.

Lemma missing_key_is_caught_witness :
  decode (F := float) no_main = None /\
  r_weather no_main <> Some [] /\
  main "Paris" "fr" "key" now_ts
    (Response (response_of "Paris" (map encode drizzle_two_days ++ no_main :: [empty_weather])))
  = Exit1.
Proof.
  split; [reflexivity|]. split; [discriminate|].
  apply (missing_key_is_caught "Paris" "fr" "key" "Paris" now_ts
           (response_of "Paris" (map encode drizzle_two_days ++ no_main :: [empty_weather]))
           {| c_name := Some "Paris" |}
           (map encode drizzle_two_days) [empty_weather] no_main drizzle_two_days);
    try reflexivity.
  right. exists 1762387200. split; [reflexivity|]. split.
  - intros H; vm_compute in H; discriminate.
  - split; [reflexivity | discriminate].
Defined.

Lemma empty_weather_list_is_not_caught_witness :
  decode_list (local_date now_ts) (map encode drizzle_two_days) = Some drizzle_two_days /\
  main "Paris" "fr" "key" now_ts
    (Response (response_of "Paris"
                 (map encode drizzle_two_days ++ empty_weather :: [no_main])))
  = Traceback IndexError.
Proof.
  split; [reflexivity|].
  apply (empty_weather_list_is_not_caught "Paris" "fr" "key" "Paris" now_ts
           (response_of "Paris" (map encode drizzle_two_days ++ empty_weather :: [no_main]))
           {| c_name := Some "Paris" |}
           (map encode drizzle_two_days) [no_main] empty_weather drizzle_two_days
           1762214400 {| m_temp := Some 10%float; m_humidity := Some 80 |} 10%float);
    try reflexivity.
  intros H; vm_compute in H; discriminate.
Defined.

Lemma fetch_data_failure_keeps_prefix_witness :
  decode (F := float) no_main = None /\
  fst (fetch_data now_ts
         (Response (response_of "Paris" (map encode drizzle_two_days ++ no_main :: [])))
         fresh_engine)
  = ensure_day "2025-11-06"
      (_process_forecasts now_ts (set_location_name "Paris" fresh_engine)
         drizzle_two_days).
Proof.
  split; [reflexivity|].
  refine (proj1 (fetch_data_failure_keeps_prefix now_ts
           (response_of "Paris" (map encode drizzle_two_days ++ no_main :: []))
           {| c_name := Some "Paris" |} "Paris"
           (map encode drizzle_two_days) [] no_main drizzle_two_days
           1762387200 fresh_engine eq_refl eq_refl eq_refl eq_refl eq_refl _ eq_refl)).
  intros H; vm_compute in H; discriminate.
Defined.

Lemma max_humidity_period_ignores_order_witness :
  Permutation drizzle_two_days (rev drizzle_two_days) /\
  max_humidity_period (run "key" "Paris" "fr" "Paris" now_ts drizzle_two_days)
  = max_humidity_period (run "key" "Paris" "fr" "Paris" now_ts (rev drizzle_two_days)).
Proof.
  assert (H : Permutation drizzle_two_days (rev drizzle_two_days))
    by apply Permutation_rev.
  split; [exact H|].
  exact (max_humidity_period_ignores_order "key" "Paris" "fr" "Paris" now_ts _ _ H).
Defined.

Lemma same_category_day_has_no_transition_witness :
  Forall (fun s => s_weather s = "Clear") [clear_20; clear_22] /\
  transitions (add_samples (WeatherData_init "2025-11-04") [clear_20; clear_22]) = 0%Z.
Proof.
  assert (H : Forall (fun s : Sample float => s_weather s = "Clear") [clear_20; clear_22])
    by (repeat constructor).
  split; [exact H|].
  exact (same_category_day_has_no_transition "2025-11-04" "Clear" _ H).
Defined.

Lemma process_forecasts_keeps_well_keyed_witness :
  well_keyed (daily_data fresh_engine) /\
  well_keyed (daily_data (_process_forecasts now_ts fresh_engine drizzle_two_days)).
Proof.
  assert (H : well_keyed (daily_data fresh_engine)) by (split; constructor).
  split; [exact H|].
  exact (process_forecasts_keeps_well_keyed now_ts fresh_engine drizzle_two_days H).
Defined.

Lemma generate_report_sorts_well_keyed_days_witness :
  well_keyed (daily_data engine_with_two_days) /\
  StronglySorted (fun a b => String.ltb (date_local a) (date_local b) = true)
    (forecast_details (generate_report engine_with_two_days)) /\
  Permutation (map date_local (forecast_details (generate_report engine_with_two_days)))
              (map fst (daily_data engine_with_two_days)).
Proof.
  assert (H : well_keyed (daily_data engine_with_two_days)).
  { split.
    - repeat constructor; cbn; intros H; repeat destruct H as [H|H];
        try discriminate H; exact H.
    - repeat constructor. }
  split; [exact H|].
  exact (generate_report_sorts_well_keyed_days engine_with_two_days H).
Defined.

Lemma absent_precipitation_adds_nothing_witness :
  f_eqb (rain_mm (add_samples (WeatherData_init "2025-11-04") [rain_24]))
        (rain_mm (add_samples (WeatherData_init "2025-11-04") [rain_24])) = true /\
  f_eqb
    (rain_mm (add_sample (add_samples (WeatherData_init "2025-11-04") [rain_24])
                20%float "Clear" (get_3h None) (get_3h (Some None))))
    (rain_mm (add_samples (WeatherData_init "2025-11-04") [rain_24])) = true.
Proof.
  split; [reflexivity|].
  exact (proj1 (absent_precipitation_adds_nothing
                  (add_samples (WeatherData_init "2025-11-04") [rain_24])
                  20%float "Clear" None (Some None)
                  (or_introl eq_refl) (or_intror eq_refl) eq_refl eq_refl)).
Defined.

Lemma report_of_a_dry_period_witness :
  Forall (fun f : Forecast float => rain f = None \/ rain f = Some None) dry_day /\
  py_eqb (total_rain_period_mm (run "key" "Paris" "fr" "Paris" now_ts dry_day))
         (NFloat 0%float) = true.
Proof.
  assert (H : Forall (fun f : Forecast float => rain f = None \/ rain f = Some None) dry_day)
    by (repeat constructor; now left).
  split; [exact H|].
  exact (proj2 (report_of_a_dry_period "key" "Paris" "fr" "Paris" now_ts dry_day H)).
Defined.
End ConcreteResponses.

(* ================================================================== *)
(** * Float sums against exact sums *)

Section ConcreteSums.
Import Binary64 UTC Scenario RawScenario.

(** C7, counterexample. 0.1 mm and 0.25 mm of rain, both non-negative, are
    added to a fresh day: the accumulated [rain_mm] is
    [6305039478318694 * 2^-54], one unit in the last place below the exact
    sum [12610078956637389 * 2^-55] of the two amounts, so it is not the
    exact sum; [rain_cumul_mm] is [0.3], while the exact sum rounded to one
    decimal is [0.4]. *)
Lemma accumulated_rain_is_not_the_exact_sum :
  nonneg_sample rain_tenth /\ nonneg_sample rain_quarter /\
  Prim2SF (rain_mm (add_samples (WeatherData_init "2025-11-04")
                      [rain_tenth; rain_quarter]))
  = S754_finite false 6305039478318694 (-54) /\
  Qred (exact_value 0.1 + exact_value 0.25)
  = (12610078956637389 # 36028797018963968)%Q /\
  Qeq_bool
    (exact_value (rain_mm (add_samples (WeatherData_init "2025-11-04")
                             [rain_tenth; rain_quarter])))
    (exact_value (s_rain rain_tenth) + exact_value (s_rain rain_quarter))
  = false /\
  rain_cumul_mm (to_dict (add_samples (WeatherData_init "2025-11-04")
                            [rain_tenth; rain_quarter]))
  = 0.3%float /\
  Qeq_bool (Exact.round1 (exact_value 0.1 + exact_value 0.25)) (4 # 10) = true.
Proof. vm_compute. repeat split. Qed.
End ConcreteSums.
